(** * Complaints dashboard front end (static/app.js): filter state, loaders,
      delta classifier, table renderer and table search.

    The embedding follows [static/app.js].  JavaScript strings are modelled
    as [string] (the UTF-8 bytes of the text), JSON integers as [Z] (the
    counts of the reports, within the safe-integer range where JavaScript
    prints them in plain decimal), and the division of the percentage column
    as binary64 floating point (primitive floats).  A JSON object is the list
    of its own properties in enumeration order; column names are data names,
    distinct from the members of [Object.prototype].  The asynchronous
    loaders are run sequentially: the part before the first [await], then the
    continuation on the answer of [fetch]. *)

From Stdlib Require Import ZArith String Ascii List Bool Lia Floats DecimalString.
From Stdlib Require Uint63.
Import ListNotations.

Open Scope string_scope.

(* ================================================================== *)
(** ** Strings *)

(** The double quote character, for markup attributes. *)
Definition dq : string := String (ascii_of_nat 34) EmptyString.

(** Line feed, for the multi-line template literals. *)
Definition nl : string := String (ascii_of_nat 10) EmptyString.

(** [`${n}`] and [n.toString()] for a safe integer, which the number type
    holds exactly and prints in plain decimal. *)
Definition numberToString (z : Z) : string :=
  NilZero.string_of_int (Z.to_int z).

(** [s.includes(q)]. *)
Fixpoint includes (s q : string) : bool :=
  String.prefix q s
  || match s with
     | EmptyString => false
     | String _ s' => includes s' q
     end.

(** Number of positions of [s] at which [q] starts. *)
Fixpoint occurrences (q s : string) : nat :=
  match s with
  | EmptyString => 0
  | String _ s' => (if String.prefix q s then 1 else 0) + occurrences q s'
  end.

(** [s1 + s2 + ...] over a list. *)
Definition concatAll (l : list string) : string :=
  fold_right String.append "" l.

(** A JavaScript value that is a string or [null]; truthiness of it. *)
Definition nonEmpty (s : string) : bool := negb (String.eqb s "").

Definition truthy (v : option string) : bool :=
  match v with
  | Some s => nonEmpty s
  | None => false
  end.

(** [v || null]. *)
Definition orNull (v : option string) : option string :=
  if truthy v then v else None.

(** [`${v}`] of a string or [null]. *)
Definition str (v : option string) : string :=
  match v with
  | Some s => s
  | None => "null"
  end.

(** [encodeURIComponent]: the unreserved characters are kept, every other
    byte of the UTF-8 encoding is written [%XX] in upper-case hexadecimal. *)
Definition isUnreserved (c : ascii) : bool :=
  let n := nat_of_ascii c in
  ((65 <=? n) && (n <=? 90)
   || (97 <=? n) && (n <=? 122)
   || (48 <=? n) && (n <=? 57)
   || existsb (Nat.eqb n) [45; 95; 46; 33; 126; 42; 39; 40; 41])%nat.

Definition hexDigit (n : nat) : ascii :=
  ascii_of_nat (if (n <? 10)%nat then 48 + n else 55 + n).

Definition percentEncode (c : ascii) : string :=
  let n := nat_of_ascii c in
  String "%" (String (hexDigit (n / 16)) (String (hexDigit (n mod 16)) "")).

Fixpoint encodeURIComponent (s : string) : string :=
  match s with
  | EmptyString => EmptyString
  | String c s' =>
      (if isUnreserved c then String c EmptyString else percentEncode c)
      ++ encodeURIComponent s'
  end.

(* ================================================================== *)
(** ** The builtins left abstract

    Case mapping and whitespace trimming of Unicode text, and the
    conversions between strings and floating-point numbers, are taken as
    interfaces. *)

Class TextOps := {
  trim : string -> string;          (* String.prototype.trim *)
  toLowerCase : string -> string;   (* String.prototype.toLowerCase *)
  trim_empty : trim "" = "";
  toLowerCase_empty : toLowerCase "" = ""
}.

Class NumberOps := {
  StringToNumber : string -> float; (* Number(s) on a string *)
  NumberToString : float -> string  (* String(x), reached from 1e21 on *)
}.

(* ================================================================== *)
(** ** JSON data *)

(** A property of a parsed JSON object that the code reads: the key is
    missing ([undefined]), holds [null], or holds a value. *)
Inductive field (A : Type) : Type :=
  | Missing
  | Null
  | Val (a : A).
Arguments Missing {A}.
Arguments Null {A}.
Arguments Val {A} a.

(** The number a conversion yields: an integer or [NaN]. *)
Inductive jsnum : Type :=
  | Num (z : Z)
  | NaN.

(** The result of [resp.json()]: a rejection, [null], or an object (any
    other JSON value reads as an object with every property missing). *)
Inductive Json (A : Type) : Type :=
  | Unparsable
  | JNull
  | JObj (a : A).
Arguments Unparsable {A}.
Arguments JNull {A}.
Arguments JObj {A} a.

(** The body of an error answer: [{ error?: string }]. *)
Record ErrorBody : Type := { error : field string }.

(** What [await fetch(url)] gives: a rejection, a response with [ok] set,
    or a response with [ok] unset. *)
Inductive FetchResult (A : Type) : Type :=
  | Rejected
  | HttpOk (body : Json A)
  | HttpError (body : Json ErrorBody).
Arguments Rejected {A}.
Arguments HttpOk {A} body.
Arguments HttpError {A} body.

(** TotalsResult *)
Record TotalsResult : Type := {
  visited : field Z;
  not_visited : field Z;
  total : field Z;
  prev_visited : field Z;
  prev_not_visited : field Z;
  prev_total : field Z;
  delta_visited : field Z;
  delta_not_visited : field Z;
  delta_total : field Z;
  prev_run_date : field string
}.

(** TableRow: own properties in enumeration order.  A cell is [null], an
    integer or a string. *)
Inductive scalar : Type :=
  | SNull
  | SNum (z : Z)
  | SStr (s : string).

Definition Row : Type := list (string * scalar).

(** [row[c]] for a name that is a key of the row or that no object
    inherits; [None] is [undefined]. *)
Fixpoint getProp (row : Row) (c : string) : option scalar :=
  match row with
  | [] => None
  | (k, v) :: rest => if String.eqb k c then Some v else getProp rest c
  end.

(** Whether [c] is a key of the row. *)
Definition hasProp (row : Row) (c : string) : bool :=
  match getProp row c with
  | Some _ => true
  | None => false
  end.

(** A row is a plain object: besides its keys it answers to the names of
    the members of [Object.prototype]. *)
Definition objectPrototypeMembers : list string :=
  ["constructor"; "hasOwnProperty"; "isPrototypeOf"; "propertyIsEnumerable";
   "toLocaleString"; "toString"; "valueOf"; "__proto__";
   "__defineGetter__"; "__defineSetter__"; "__lookupGetter__";
   "__lookupSetter__"].

Definition inherited (c : string) : bool :=
  existsb (String.eqb c) objectPrototypeMembers.

(** [c in row]: a key of the row or an inherited name.  For a name that is
    not inherited it is [hasProp], and [row[c]] is [getProp]. *)
Definition inOperator (row : Row) (c : string) : bool :=
  hasProp row c || inherited c.

(** [Object.keys(row)]. *)
Definition keys (row : Row) : list string := map fst row.

(** [{ ...row, [k]: v }]: an existing key keeps its place. *)
Fixpoint setProp (row : Row) (k : string) (v : scalar) : Row :=
  match row with
  | [] => [(k, v)]
  | (k', v') :: rest =>
      if String.eqb k' k then (k', v) :: rest else (k', v') :: setProp rest k v
  end.

Record DetailsResult : Type := {
  summary : field (list Row);
  raw : field (list Row)
}.

Record ChartData : Type := {
  labels : list string;
  current_visited : list Z;
  current_not : list Z;
  cd_prev_visited : list Z;
  cd_prev_not : list Z;
  has_prev : bool
}.

(** SectorMeta: key -> { label, municipalities }; [municipalities] is
    [None] when the property is not an array. *)
Record SectorInfo : Type := {
  label : string;
  municipalities : option (list string)
}.

Definition SectorMeta : Type := list (string * SectorInfo).

Fixpoint metaLookup (m : SectorMeta) (k : string) : option SectorInfo :=
  match m with
  | [] => None
  | (k', i) :: rest => if String.eqb k' k then Some i else metaLookup rest k
  end.

(* ================================================================== *)
(** ** Page, chart and global state *)

Record FilterState : Type := {
  sector : option string;
  municipality : option string
}.

(** An element with text and a class list (the delta slots of the cards). *)
Record Element : Type := {
  textContent : string;
  classList : list string
}.

(** The municipality [<select>]: options as (value, text), and [disabled]. *)
Record Select : Type := {
  options : list (string * string);
  disabled : bool
}.

(** The elements the script binds to; [None] when the page lacks one. *)
Record Dom : Type := {
  body_data_sector : option string;
  status : option string;
  card_visited_value : option string;
  card_not_visited_value : option string;
  card_total_value : option string;
  card_visited_delta : option Element;
  card_not_visited_delta : option Element;
  card_total_delta : option Element;
  muni_summary_table : option string;
  muni_raw_table : option string;
  visitsChart_canvas : bool;
  municipality_filter : Select
}.

Record Dataset : Type := {
  ds_label : string;
  ds_data : list Z;
  backgroundColor : string;
  stack : string
}.

(** A chart instance; [destroyed] once [destroy()] was called on it. *)
Record Chart : Type := {
  chart_labels : list string;
  datasets : list Dataset;
  destroyed : bool
}.

Inductive exn : Type :=
  | NetworkError
  | SyntaxError
  | TypeError.

(** The globals of the script, the page, the URLs fetched so far, what
    [console.error] received, and the rejections nobody handled. *)
Record World : Type := {
  currentFilter : FilterState;
  sectorMeta : SectorMeta;
  visitsChart : option Chart;
  dom : Dom;
  requests : list string;
  console : list exn;
  unhandled : list exn
}.

Definition withFilter (f : FilterState) (w : World) : World :=
  {| currentFilter := f; sectorMeta := sectorMeta w;
     visitsChart := visitsChart w; dom := dom w; requests := requests w;
     console := console w; unhandled := unhandled w |}.

Definition withChart (c : option Chart) (w : World) : World :=
  {| currentFilter := currentFilter w; sectorMeta := sectorMeta w;
     visitsChart := c; dom := dom w; requests := requests w;
     console := console w; unhandled := unhandled w |}.

Definition withDom (d : Dom) (w : World) : World :=
  {| currentFilter := currentFilter w; sectorMeta := sectorMeta w;
     visitsChart := visitsChart w; dom := d; requests := requests w;
     console := console w; unhandled := unhandled w |}.

Definition withRequests (r : list string) (w : World) : World :=
  {| currentFilter := currentFilter w; sectorMeta := sectorMeta w;
     visitsChart := visitsChart w; dom := dom w; requests := r;
     console := console w; unhandled := unhandled w |}.

Definition withConsole (c : list exn) (w : World) : World :=
  {| currentFilter := currentFilter w; sectorMeta := sectorMeta w;
     visitsChart := visitsChart w; dom := dom w; requests := requests w;
     console := c; unhandled := unhandled w |}.

Definition withUnhandled (u : list exn) (w : World) : World :=
  {| currentFilter := currentFilter w; sectorMeta := sectorMeta w;
     visitsChart := visitsChart w; dom := dom w; requests := requests w;
     console := console w; unhandled := u |}.

(** [if (el) el.prop = v]: a write reaches the element only if it exists. *)
Definition assign {A : Type} (v : A) (el : option A) : option A :=
  option_map (fun _ => v) el.

Definition setStatusText (s : string) (d : Dom) : Dom :=
  {| body_data_sector := body_data_sector d;
     status := assign s (status d);
     card_visited_value := card_visited_value d;
     card_not_visited_value := card_not_visited_value d;
     card_total_value := card_total_value d;
     card_visited_delta := card_visited_delta d;
     card_not_visited_delta := card_not_visited_delta d;
     card_total_delta := card_total_delta d;
     muni_summary_table := muni_summary_table d;
     muni_raw_table := muni_raw_table d;
     visitsChart_canvas := visitsChart_canvas d;
     municipality_filter := municipality_filter d |}.

Definition setCardValues (v n t : string) (d : Dom) : Dom :=
  {| body_data_sector := body_data_sector d;
     status := status d;
     card_visited_value := assign v (card_visited_value d);
     card_not_visited_value := assign n (card_not_visited_value d);
     card_total_value := assign t (card_total_value d);
     card_visited_delta := card_visited_delta d;
     card_not_visited_delta := card_not_visited_delta d;
     card_total_delta := card_total_delta d;
     muni_summary_table := muni_summary_table d;
     muni_raw_table := muni_raw_table d;
     visitsChart_canvas := visitsChart_canvas d;
     municipality_filter := municipality_filter d |}.

Definition setCardDeltas (v n t : option Element) (d : Dom) : Dom :=
  {| body_data_sector := body_data_sector d;
     status := status d;
     card_visited_value := card_visited_value d;
     card_not_visited_value := card_not_visited_value d;
     card_total_value := card_total_value d;
     card_visited_delta := v;
     card_not_visited_delta := n;
     card_total_delta := t;
     muni_summary_table := muni_summary_table d;
     muni_raw_table := muni_raw_table d;
     visitsChart_canvas := visitsChart_canvas d;
     municipality_filter := municipality_filter d |}.

Definition setSummaryHtml (h : string) (d : Dom) : Dom :=
  {| body_data_sector := body_data_sector d;
     status := status d;
     card_visited_value := card_visited_value d;
     card_not_visited_value := card_not_visited_value d;
     card_total_value := card_total_value d;
     card_visited_delta := card_visited_delta d;
     card_not_visited_delta := card_not_visited_delta d;
     card_total_delta := card_total_delta d;
     muni_summary_table := assign h (muni_summary_table d);
     muni_raw_table := muni_raw_table d;
     visitsChart_canvas := visitsChart_canvas d;
     municipality_filter := municipality_filter d |}.

Definition setRawHtml (h : string) (d : Dom) : Dom :=
  {| body_data_sector := body_data_sector d;
     status := status d;
     card_visited_value := card_visited_value d;
     card_not_visited_value := card_not_visited_value d;
     card_total_value := card_total_value d;
     card_visited_delta := card_visited_delta d;
     card_not_visited_delta := card_not_visited_delta d;
     card_total_delta := card_total_delta d;
     muni_summary_table := muni_summary_table d;
     muni_raw_table := assign h (muni_raw_table d);
     visitsChart_canvas := visitsChart_canvas d;
     municipality_filter := municipality_filter d |}.

Definition setMuniSelect (s : Select) (d : Dom) : Dom :=
  {| body_data_sector := body_data_sector d;
     status := status d;
     card_visited_value := card_visited_value d;
     card_not_visited_value := card_not_visited_value d;
     card_total_value := card_total_value d;
     card_visited_delta := card_visited_delta d;
     card_not_visited_delta := card_not_visited_delta d;
     card_total_delta := card_total_delta d;
     muni_summary_table := muni_summary_table d;
     muni_raw_table := muni_raw_table d;
     visitsChart_canvas := visitsChart_canvas d;
     municipality_filter := s |}.

(* ================================================================== *)
(** ** Effects: global state and exceptions *)

Inductive completion (A : Type) : Type :=
  | Normal (a : A)
  | Throw (e : exn).
Arguments Normal {A} a.
Arguments Throw {A} e.

Definition Eff (A : Type) : Type := World -> completion A * World.

Definition ret {A : Type} (a : A) : Eff A := fun w => (Normal a, w).

Definition bind {A B : Type} (c : Eff A) (k : A -> Eff B) : Eff B :=
  fun w =>
    match c w with
    | (Normal a, w') => k a w'
    | (Throw e, w') => (Throw e, w')
    end.

Definition throw {A : Type} (e : exn) : Eff A := fun w => (Throw e, w).

Definition gets {A : Type} (f : World -> A) : Eff A :=
  fun w => (Normal (f w), w).

Definition modify (f : World -> World) : Eff unit :=
  fun w => (Normal tt, f w).

(** [try { body } catch (e) { handler }] *)
Definition tryCatch {A : Type} (body : Eff A) (handler : exn -> Eff A) : Eff A :=
  fun w =>
    match body w with
    | (Normal a, w') => (Normal a, w')
    | (Throw e, w') => handler e w'
    end.

(** A call of an async function whose promise is dropped: an exception
    leaving it is an unhandled rejection, never an exception of the caller. *)
Definition detach (c : Eff unit) : Eff unit :=
  fun w =>
    match c w with
    | (Normal _, w') => (Normal tt, w')
    | (Throw e, w') => (Normal tt, withUnhandled (unhandled w' ++ [e]) w')
    end.

Declare Scope eff_scope.
Delimit Scope eff_scope with eff.
Notation "x <- c ;; k" := (bind c (fun x => k))
  (at level 61, c at next level, right associativity) : eff_scope.
Notation "c ;; k" := (bind c (fun _ => k))
  (at level 61, right associativity) : eff_scope.
Open Scope eff_scope.

Definition modifyDom (f : Dom -> Dom) : Eff unit :=
  modify (fun w => withDom (f (dom w)) w).

Definition consoleError (e : exn) : Eff unit :=
  modify (fun w => withConsole (console w ++ [e]) w).

(** The answer of the server to one request. *)
Inductive Response (A : Type) : Type :=
  | Ok (body : Json A)
  | NotOk (body : Json ErrorBody).
Arguments Ok {A} body.
Arguments NotOk {A} body.

(** [await fetch(url, ...)], given what the network answers. *)
Definition fetch {A : Type} (url : string) (r : FetchResult A) : Eff (Response A) :=
  modify (fun w => withRequests (requests w ++ [url]) w) ;;
  match r with
  | Rejected => throw NetworkError
  | HttpOk b => ret (Ok b)
  | HttpError b => ret (NotOk b)
  end.

(** [await resp.json()]: [None] is [null]. *)
Definition json {A : Type} (b : Json A) : Eff (option A) :=
  match b with
  | Unparsable => throw SyntaxError
  | JNull => ret None
  | JObj a => ret (Some a)
  end.

(** The first property read of a parsed value: [null.x] throws. *)
Definition deref {A : Type} (v : option A) : Eff A :=
  match v with
  | Some a => ret a
  | None => throw TypeError
  end.

(* ================================================================== *)
(** ** Filter helpers *)

(** [getBodySector]: the [data-sector] attribute of the body, or [null]. *)
Definition getBodySector (w : World) : option string :=
  orNull (body_data_sector (dom w)).

Definition getSectorKey (w : World) : option string :=
  let bodySector := getBodySector w in
  if truthy bodySector then bodySector else sector (currentFilter w).

Definition getMunicipalityFilter (w : World) : option string :=
  let bodySector := getBodySector w in
  if truthy bodySector then None else municipality (currentFilter w).

(** The scope of section 4.1, following the words of the specification:
    the bound sector if the page has one, else the selected municipality,
    else the selected sector, else all data. *)
Inductive Scope : Type :=
  | AllData
  | BySector (key : string)
  | ByMunicipality (name : string).

Definition resolveScope (w : World) : Scope :=
  match orNull (body_data_sector (dom w)) with
  | Some boundKey => BySector boundKey
  | None =>
      match orNull (municipality (currentFilter w)) with
      | Some name => ByMunicipality name
      | None =>
          match orNull (sector (currentFilter w)) with
          | Some key => BySector key
          | None => AllData
          end
      end
  end.

(** The endpoints of a scope, as section 6 lists them. *)
Definition totalsEndpoint (s : Scope) : string :=
  match s with
  | AllData => "/api/totals"
  | BySector key => "/api/totals/sector/" ++ key
  | ByMunicipality name => "/api/totals/municipality/" ++ encodeURIComponent name
  end.

Definition chartEndpoint (s : Scope) : string :=
  match s with
  | AllData => "/api/chart-data/compare?scope=all"
  | BySector key =>
      "/api/chart-data/compare?scope=sector&sector=" ++ encodeURIComponent key
  | ByMunicipality name =>
      "/api/chart-data/compare?scope=municipality&municipality="
      ++ encodeURIComponent name
  end.

Definition detailsEndpoint (s : Scope) : option string :=
  match s with
  | ByMunicipality name =>
      Some ("/api/municipality/" ++ encodeURIComponent name ++ "/details")
  | _ => None
  end.

(* ================================================================== *)
(** ** loadTotals *)

(** [Number(v || 0)] on a count. *)
Definition numberOrZero (v : field Z) : Z :=
  match v with
  | Val z => z
  | _ => 0%Z
  end.

(** [Number(v)]. *)
Definition toNumber (v : field Z) : jsnum :=
  match v with
  | Missing => NaN
  | Null => Num 0
  | Val z => Num z
  end.

(** [v !== null ? Number(v) : null]; [None] is [null]. *)
Definition numberUnlessNull (v : field Z) : option jsnum :=
  match v with
  | Null => None
  | _ => Some (toNumber v)
  end.

(** [data.prev_run_date || null]. *)
Definition dateOrNull (v : field string) : option string :=
  match v with
  | Val s => orNull (Some s)
  | _ => None
  end.

(** [deltaVal === null], [deltaVal > 0], [deltaVal < 0], [`${deltaVal}`]. *)
Definition isNullField {A : Type} (v : field A) : bool :=
  match v with
  | Null => true
  | _ => false
  end.

Definition isNull {A : Type} (v : option A) : bool :=
  match v with
  | None => true
  | Some _ => false
  end.

Definition gtZero (v : field Z) : bool :=
  match v with
  | Val z => (0 <? z)%Z
  | _ => false
  end.

Definition ltZero (v : field Z) : bool :=
  match v with
  | Val z => (z <? 0)%Z
  | _ => false
  end.

Definition fieldToString (v : field Z) : string :=
  match v with
  | Missing => "undefined"
  | Null => "null"
  | Val z => numberToString z
  end.

Definition classList_remove (cs : list string) (el : Element) : Element :=
  {| textContent := textContent el;
     classList :=
       filter (fun c => negb (existsb (String.eqb c) cs)) (classList el) |}.

Definition classList_add (c : string) (el : Element) : Element :=
  {| textContent := textContent el;
     classList :=
       if existsb (String.eqb c) (classList el) then classList el
       else classList el ++ [c] |}.

Definition setText (s : string) (el : Element) : Element :=
  {| textContent := s; classList := classList el |}.

(** The inner function of [loadTotals]; [prevDate] is the variable of the
    enclosing call that it closes over. *)
Definition updateDelta (prevDate : option string) (el : option Element)
    (prevVal : option jsnum) (deltaVal : field Z) (label : string)
    : option Element :=
  match el with
  | None => None
  | Some el =>
      let el := classList_remove ["delta-positive"; "delta-negative"; "delta-neutral"] el in
      Some
        (if isNull prevVal || isNullField deltaVal || isNull prevDate then
           classList_add "delta-neutral"
             (setText ("لا يوجد تشغيل سابق لـ " ++ label) el)
         else if gtZero deltaVal then
           classList_add "delta-positive"
             (setText ("+" ++ fieldToString deltaVal
                       ++ " مقارنةً بالتشغيل السابق (" ++ str prevDate ++ ")") el)
         else if ltZero deltaVal then
           classList_add "delta-negative"
             (setText (fieldToString deltaVal
                       ++ " مقارنةً بالتشغيل السابق (" ++ str prevDate ++ ")") el)
         else
           classList_add "delta-neutral"
             (setText ("لا تغيير مقارنةً بالتشغيل السابق (" ++ str prevDate ++ ")") el))
  end.

(** The URL [loadTotals] builds. *)
Definition totalsUrl (w : World) : string :=
  let bodySector := getBodySector w in
  let filterSector := getSectorKey w in
  let filterMuni := getMunicipalityFilter w in
  if truthy bodySector then "/api/totals/sector/" ++ str bodySector
  else if truthy filterMuni then
    "/api/totals/municipality/" ++ encodeURIComponent (str filterMuni)
  else if truthy filterSector then "/api/totals/sector/" ++ str filterSector
  else "/api/totals".

Definition renderTotals (data : TotalsResult) : Eff unit :=
  let visited := numberOrZero (visited data) in
  let notVisited := numberOrZero (not_visited data) in
  let total := numberOrZero (total data) in
  let prevVisited := numberUnlessNull (prev_visited data) in
  let prevNot := numberUnlessNull (prev_not_visited data) in
  let prevTotal := numberUnlessNull (prev_total data) in
  let prevDate := dateOrNull (prev_run_date data) in
  modifyDom (setCardValues (numberToString visited)
                           (numberToString notVisited)
                           (numberToString total)) ;;
  modifyDom (fun d =>
    setCardDeltas (card_visited_delta d)
      (updateDelta prevDate (card_not_visited_delta d) prevNot
                   (delta_not_visited data) "لم تزار")
      (card_total_delta d) d) ;;
  modifyDom (fun d =>
    setCardDeltas
      (updateDelta prevDate (card_visited_delta d) prevVisited
                   (delta_visited data) "تمت الزيارة")
      (card_not_visited_delta d) (card_total_delta d) d) ;;
  modifyDom (fun d =>
    setCardDeltas (card_visited_delta d) (card_not_visited_delta d)
      (updateDelta prevDate (card_total_delta d) prevTotal
                   (delta_total data) "اجمالي الزيارات") d) ;;
  modifyDom (setStatusText "").

Definition loadTotals (r : FetchResult TotalsResult) : Eff unit :=
  modifyDom (setStatusText "جاري تحميل البيانات...") ;;
  url <- gets totalsUrl ;;
  tryCatch
    (resp <- fetch url r ;;
     match resp with
     | NotOk _ => modifyDom (setStatusText "لا توجد بيانات متاحة.")
     | Ok body =>
         parsed <- json body ;;
         data <- deref parsed ;;
         renderTotals data
     end)
    (fun e =>
       consoleError e ;;
       modifyDom (setStatusText "خطأ في الاتصال بالخادم.")).

(* ================================================================== *)
(** ** buildTableHtml *)

(** [`${val === null || val === undefined ? "" : val}`] *)
Definition cellText (val : option scalar) : string :=
  match val with
  | None => ""
  | Some SNull => ""
  | Some (SNum z) => numberToString z
  | Some (SStr s) => s
  end.

Definition tableEmpty : string :=
  "<div class=" ++ dq ++ "table-empty" ++ dq ++ ">لا توجد بيانات لعرضها.</div>".

Definition tableOpen : string :=
  "<div class=" ++ dq ++ "table-wrapper" ++ dq ++ "><table class=" ++ dq
  ++ "data-table" ++ dq ++ "><thead><tr>".

Definition titleDiv (title : string) : string :=
  "<div class=" ++ dq ++ "table-title" ++ dq ++ ">" ++ title ++ "</div>".

(** [rows], [preferredOrder] and [title] may each be [null].  The column
    names are taken to be names that no object inherits, on which
    [c in first] is [hasProp first c] and [row[c]] is [getProp row c]. *)
Definition buildTableHtml (rows : option (list Row))
    (preferredOrder : option (list string)) (title : option string) : string :=
  match rows with
  | None => tableEmpty
  | Some [] => tableEmpty
  | Some ((first :: _) as rows) =>
      let cols : list string := [] in
      let cols :=
        match preferredOrder with
        | Some order =>
            if (0 <? length order)%nat then filter (hasProp first) order
            else cols
        | None => cols
        end in
      let cols := if (length cols =? 0)%nat then keys first else cols in
      let html := "" in
      let html := if truthy title then html ++ titleDiv (str title) else html in
      let html := html ++ tableOpen in
      let html :=
        fold_left (fun html c => html ++ "<th>" ++ c ++ "</th>") cols html in
      let html := html ++ "</tr></thead><tbody>" in
      let html :=
        fold_left
          (fun html row =>
             let html := html ++ "<tr>" in
             let html :=
               fold_left
                 (fun html c =>
                    html ++ "<td>" ++ cellText (getProp row c) ++ "</td>")
                 cols html in
             html ++ "</tr>")
          rows html in
      html ++ "</tbody></table></div>"
  end.

(** The table the specification describes (section 4.3): the column set,
    one header cell per column, one row of cells per data row. *)
Definition columnSet (first : Row) (preferredColumnOrder : list string)
    : list string :=
  match filter (hasProp first) preferredColumnOrder with
  | [] => keys first
  | cols => cols
  end.

Definition headerCells (cols : list string) : string :=
  concatAll (map (fun c => "<th>" ++ c ++ "</th>") cols).

Definition dataRow (cols : list string) (row : Row) : string :=
  "<tr>"
  ++ concatAll (map (fun c => "<td>" ++ cellText (getProp row c) ++ "</td>") cols)
  ++ "</tr>".

(** [preferredOrder] when it may be [null]. *)
Definition orderOrEmpty (preferredOrder : option (list string)) : list string :=
  match preferredOrder with
  | Some order => order
  | None => []
  end.

(** [title] when it may be [null] or empty. *)
Definition titlePart (title : option string) : string :=
  if truthy title then titleDiv (str title) else "".

(** The rows of the example of section 8. *)
Definition exampleRows : list Row :=
  [[("a", SNum 1); ("b", SNum 2)]; [("a", SNum 3)]].

(* ================================================================== *)
(** ** Table search (setupSearchForContainer) *)

(** A rendered row of the table body: its text and [style.display]. *)
Record RowEl : Type := {
  row_textContent : string;
  row_display : string
}.

Definition setDisplay (v : string) (row : RowEl) : RowEl :=
  {| row_textContent := row_textContent row; row_display := v |}.

(** The [input] listener, on the rows captured when it was installed. *)
Definition onSearchInput `{TextOps} (value : string) (rows : list RowEl)
    : list RowEl :=
  let q := toLowerCase (trim value) in
  if negb (nonEmpty q) then map (setDisplay "") rows
  else
    map (fun row =>
           let text := toLowerCase (row_textContent row) in
           setDisplay (if includes text q then "" else "none") row)
        rows.

(** A row is hidden when its [display] is [none]. *)
Definition hidden (row : RowEl) : bool := String.eqb (row_display row) "none".

(** The builtins on ASCII text: the white space characters of ASCII, and
    the letters A to Z. *)
Definition isAsciiSpace (c : ascii) : bool :=
  existsb (Nat.eqb (nat_of_ascii c)) [9; 10; 11; 12; 13; 32]%nat.

Fixpoint trimStart (s : string) : string :=
  match s with
  | EmptyString => EmptyString
  | String c s' => if isAsciiSpace c then trimStart s' else s
  end.

Fixpoint trimEnd (s : string) : string :=
  match s with
  | EmptyString => EmptyString
  | String c s' =>
      match trimEnd s' with
      | EmptyString => if isAsciiSpace c then EmptyString else String c EmptyString
      | t => String c t
      end
  end.

Definition asciiLower (c : ascii) : ascii :=
  let n := nat_of_ascii c in
  if ((65 <=? n) && (n <=? 90))%nat then ascii_of_nat (n + 32) else c.

Fixpoint mapString (f : ascii -> ascii) (s : string) : string :=
  match s with
  | EmptyString => EmptyString
  | String c s' => String (f c) (mapString f s')
  end.

#[global] Instance asciiText : TextOps := {
  trim := fun s => trimEnd (trimStart s);
  toLowerCase := mapString asciiLower;
  trim_empty := eq_refl;
  toLowerCase_empty := eq_refl
}.

(* ================================================================== *)
(** ** loadMunicipalityDetails *)

(** The double nearest to an integer (what a JSON integer parses to). *)
Definition Z2F (z : Z) : float :=
  SF2Prim (SpecFloat.binary_normalize prec emax z 0 false).

(** [Number(row[k] ?? 0)] *)
Definition cellNumber `{NumberOps} (v : option scalar) : float :=
  match v with
  | None => Z2F 0
  | Some SNull => Z2F 0
  | Some (SNum z) => Z2F z
  | Some (SStr s) => StringToNumber s
  end.

(** [n / 10] to one decimal, for an integer [n >= 0] of tenths. *)
Definition tenthsToString (n : Z) : string :=
  numberToString (n / 10) ++ "." ++ numberToString (n mod 10).

(** [x.toFixed(1)]: the number of tenths nearest to [|x|], the larger one
    on a tie; from 1e21 on, and for a value that is not finite, the
    string of the number itself. *)
Definition toFixed1 `{NumberOps} (x : float) : string :=
  match Prim2SF x with
  | S754_nan => "NaN"
  | S754_infinity false => "Infinity"
  | S754_infinity true => "-Infinity"
  | S754_zero _ => "0.0"
  | S754_finite s m e =>
      let sign := if s then "-" else "" in
      let big :=
        if (0 <=? e)%Z then (10 ^ 21 <=? Z.pos m * 2 ^ e)%Z
        else (10 ^ 21 * 2 ^ (- e) <=? Z.pos m)%Z in
      if big then sign ++ NumberToString (abs x)
      else
        let n :=
          if (0 <=? e)%Z then (Z.pos m * 2 ^ e * 10)%Z
          else ((20 * Z.pos m + 2 ^ (- e)) / 2 ^ (1 - e))%Z in
        sign ++ tenthsToString n
  end.

(** [total > 0 ? (visited / total) * 100 : 0] *)
Definition percentage (total visited : float) : float :=
  if (0 <? total)%float then (visited / total * 100)%float else 0%float.

(** The callback of [summaryRows.map]. *)
Definition withPercentage `{NumberOps} (row : Row) : Row :=
  let total := cellNumber (getProp row "إجمالي_الرخص") in
  let visited := cellNumber (getProp row "تمت الزيارة") in
  let pct := percentage total visited in
  setProp row "النسبة" (SStr (toFixed1 pct ++ "%")).

Definition summaryOrder : list string :=
  ["التصنيف"; "إجمالي_الرخص"; "تمت الزيارة"; "لم تزار"; "النسبة"].

Definition rawOrder : list string :=
  ["رقم الزيارة"; "الامانة"; "البلدية"; "اسم الحي"; "اسم المراقب";
   "تاريخ ووقت الاسناد"; "تاريخ الاسناد"; "وقت  اسناد الزيارة";
   "تاريخ بدء الزيارة"; "تاريخ انهاء الزيارة"; "مدة الزيارة";
   "نوع الرقابة"; "درجة خطورة النشاط"; "درجة الامتثال"; "رقم البلاغ";
   "حالة الزيارة"; "نوع الزيارة"; "رقم الجهة"; "اسم الجهة";
   "قيمة المخالفة"; "هل المخالفة انذار"; "رقم بند اللائحة"; "رقم الرخصة";
   "اسم المنشأة"; "المرحلة"; "عدد البنود الغير ممتثلة"; "اسم الادارة";
   "license_id_str"; "الحالات"; "MUNICIPALITY_EN"; "التصنيف"].

(** [v || []] *)
Definition rowsOrEmpty (v : field (list Row)) : list Row :=
  match v with
  | Val rows => rows
  | _ => []
  end.

(** [err.error || fallback] *)
Definition errorOr (v : field string) (fallback : string) : string :=
  match v with
  | Val s => if nonEmpty s then s else fallback
  | _ => fallback
  end.

Definition summaryBlock (tableHtml : string) : string :=
  nl ++ "      <div class=" ++ dq ++ "table-title" ++ dq
  ++ ">ملخص الزيارات حسب التصنيف</div>"
  ++ nl ++ "      <div class=" ++ dq ++ "search-container" ++ dq ++ ">"
  ++ nl ++ "        <input type=" ++ dq ++ "text" ++ dq ++ " class=" ++ dq
  ++ "table-search search-input" ++ dq ++ " placeholder=" ++ dq ++ "بحث..."
  ++ dq ++ " />"
  ++ nl ++ "        <span class=" ++ dq ++ "search-icon" ++ dq ++ ">🔍</span>"
  ++ nl ++ "      </div>"
  ++ nl ++ "      " ++ tableHtml
  ++ nl ++ "    ".

Definition rawBlock (tableHtml : string) : string :=
  nl ++ "      <div class=" ++ dq ++ "table-title" ++ dq
  ++ ">الزيارات وحالاتها </div>"
  ++ nl ++ "      <div class=" ++ dq ++ "search-container" ++ dq ++ ">"
  ++ nl ++ "        <input type=" ++ dq ++ "text" ++ dq ++ " class=" ++ dq
  ++ "table-search search-input" ++ dq ++ " placeholder=" ++ dq ++ "بحث..."
  ++ dq ++ " />"
  ++ nl ++ "      </div>"
  ++ nl ++ "      " ++ tableHtml
  ++ nl ++ "    ".

Definition renderDetails `{NumberOps} (data : DetailsResult) : Eff unit :=
  let summaryRows := rowsOrEmpty (summary data) in
  let summaryRows := map withPercentage summaryRows in
  let rawRows := rowsOrEmpty (raw data) in
  let summaryTableHtml :=
    buildTableHtml (Some summaryRows) (Some summaryOrder) None in
  modifyDom (setSummaryHtml (summaryBlock summaryTableHtml)) ;;
  let rawTableHtml := buildTableHtml (Some rawRows) (Some rawOrder) None in
  modifyDom (setRawHtml (rawBlock rawTableHtml)).

(** The search listeners that the last two statements of the [try] block
    install act on the rows of the new tables: see [onSearchInput]. *)
Definition loadMunicipalityDetails `{NumberOps}
    (r : FetchResult DetailsResult) : Eff unit :=
  summaryContainer <- gets (fun w => muni_summary_table (dom w)) ;;
  rawContainer <- gets (fun w => muni_raw_table (dom w)) ;;
  if isNull summaryContainer || isNull rawContainer then ret tt
  else
    bodySector <- gets getBodySector ;;
    if truthy bodySector then
      modifyDom (setSummaryHtml "") ;;
      modifyDom (setRawHtml "")
    else
      muni <- gets getMunicipalityFilter ;;
      if negb (truthy muni) then
        modifyDom (setSummaryHtml
          "<div class='table-empty'>اختر بلديه لعرض التفاصيل</div>") ;;
        modifyDom (setRawHtml "")
      else
        modifyDom (setSummaryHtml
          "<div class='table-loading'>جاري تحميل تفاصيل البلدية...</div>") ;;
        modifyDom (setRawHtml "") ;;
        tryCatch
          (resp <- fetch ("/api/municipality/" ++ encodeURIComponent (str muni)
                          ++ "/details") r ;;
           match resp with
           | NotOk body =>
               err <- tryCatch (json body)
                        (fun _ => ret (Some {| error := Missing |})) ;;
               err <- deref err ;;
               let msg := errorOr (error err) "تعذر تحميل تفاصيل البلدية." in
               modifyDom (setSummaryHtml
                 ("<div class='table-error'>" ++ msg ++ "</div>"))
           | Ok body =>
               parsed <- json body ;;
               data <- deref parsed ;;
               renderDetails data
           end)
          (fun e =>
             consoleError e ;;
             modifyDom (setSummaryHtml
               "<div class='table-error'>خطأ في الاتصال.</div>")).

(* ================================================================== *)
(** ** loadChart *)

Definition chartQuery (w : World) : string :=
  let bodySector := getBodySector w in
  let muni := getMunicipalityFilter w in
  let sector := getSectorKey w in
  if truthy bodySector then
    "?scope=sector&sector=" ++ encodeURIComponent (str bodySector)
  else if truthy muni then
    "?scope=municipality&municipality=" ++ encodeURIComponent (str muni)
  else if truthy sector then
    "?scope=sector&sector=" ++ encodeURIComponent (str sector)
  else "?scope=all".

(** [visitsChart.destroy()] *)
Definition destroy (c : Chart) : Chart :=
  {| chart_labels := chart_labels c; datasets := datasets c; destroyed := true |}.

Definition chartDatasets (data : ChartData) : list Dataset :=
  let datasets :=
    [ {| ds_label := "اليوم الحالي - تمت الزيارة";
         ds_data := current_visited data;
         backgroundColor := "#D4AF91"; stack := "current" |};
      {| ds_label := "اليوم الحالي - لم تزار";
         ds_data := current_not data;
         backgroundColor := "#973D4B"; stack := "current" |} ] in
  if has_prev data then
    datasets
    ++ [ {| ds_label := "اليوم السابق - تمت الزيارة";
            ds_data := cd_prev_visited data;
            backgroundColor := "#E3A778"; stack := "previous" |};
         {| ds_label := "اليوم السابق - لم تزار";
            ds_data := cd_prev_not data;
            backgroundColor := "#973D4B"; stack := "previous" |} ]
  else datasets.

Definition loadChart (r : FetchResult ChartData) : Eff unit :=
  canvas <- gets (fun w => visitsChart_canvas (dom w)) ;;
  if negb canvas then ret tt
  else
    query <- gets chartQuery ;;
    tryCatch
      (resp <- fetch ("/api/chart-data/compare" ++ query) r ;;
       match resp with
       | NotOk _ => ret tt
       | Ok body =>
           parsed <- json body ;;
           modify (fun w => withChart (option_map destroy (visitsChart w)) w) ;;
           data <- deref parsed ;;
           let datasets := chartDatasets data in
           modify (withChart
             (Some {| chart_labels := labels data; datasets := datasets;
                      destroyed := false |}))
       end)
      (fun e => consoleError e).

(** The chart the canvas shows: the instance held by [visitsChart], unless
    it was destroyed. *)
Definition shownChart (w : World) : option Chart :=
  match visitsChart w with
  | Some c => if destroyed c then None else Some c
  | None => None
  end.

(* ================================================================== *)
(** ** The change listeners of setupHomeFilters *)

Definition allMunicipalities : list (string * string) := [("", "كل البلديات")].

Definition setSector (v : option string) : Eff unit :=
  modify (fun w =>
    withFilter {| sector := v;
                  municipality := municipality (currentFilter w) |} w).

Definition setMunicipality (v : option string) : Eff unit :=
  modify (fun w =>
    withFilter {| sector := sector (currentFilter w);
                  municipality := v |} w).

(** The three answers the network gives to the loads a listener starts.
    The loads write to disjoint parts of the page, so they are run one
    after the other. *)
Record Answers : Type := {
  detailsAnswer : FetchResult DetailsResult;
  totalsAnswer : FetchResult TotalsResult;
  chartAnswer : FetchResult ChartData
}.

Definition reloadAll `{NumberOps} (a : Answers) : Eff unit :=
  detach (loadMunicipalityDetails (detailsAnswer a)) ;;
  detach (loadTotals (totalsAnswer a)) ;;
  detach (loadChart (chartAnswer a)).

(** [sectorSelect]'s listener; [value] is [sectorSelect.value]. *)
Definition onSectorChange `{NumberOps} (value : string) (a : Answers)
    : Eff unit :=
  let val := value in
  if negb (nonEmpty val) then
    setSector None ;;
    setMunicipality None ;;
    modifyDom (setMuniSelect {| options := allMunicipalities; disabled := true |}) ;;
    reloadAll a
  else
    setSector (Some val) ;;
    setMunicipality None ;;
    info <- gets (fun w => metaLookup (sectorMeta w) val) ;;
    let added :=
      match info with
      | Some info =>
          match municipalities info with
          | Some ms => map (fun m => (m, m)) ms
          | None => []
          end
      | None => []
      end in
    modifyDom (fun d =>
      setMuniSelect {| options := allMunicipalities ++ added;
                       disabled := false |} d) ;;
    reloadAll a.

(** [muniSelect]'s listener; [value] is [muniSelect.value]. *)
Definition onMunicipalityChange `{NumberOps} (value : string) (a : Answers)
    : Eff unit :=
  let val := value in
  setMunicipality (orNull (Some val)) ;;
  reloadAll a.

(* ================================================================== *)
(** ** What the properties observe *)

(** The values and delta slots of the three cards. *)
Definition cardSlots (d : Dom) :
    option string * option string * option string
    * option Element * option Element * option Element :=
  (card_visited_value d, card_not_visited_value d, card_total_value d,
   card_visited_delta d, card_not_visited_delta d, card_total_delta d).

(** The numeric values of the three cards. *)
Definition cardValues (d : Dom) : option string * option string * option string :=
  (card_visited_value d, card_not_visited_value d, card_total_value d).

(** The municipalities that the metadata lists for a sector. *)
Definition municipalitiesOf (m : SectorMeta) (key : string) : list string :=
  match metaLookup m key with
  | Some info =>
      match municipalities info with
      | Some ms => ms
      | None => []
      end
  | None => []
  end.

(** What a loader has no business with: the filter state, the sector
    metadata, the municipality control and the sector the page is bound to. *)
Definition sameControls (w w' : World) : Prop :=
  currentFilter w' = currentFilter w
  /\ sectorMeta w' = sectorMeta w
  /\ municipality_filter (dom w') = municipality_filter (dom w)
  /\ body_data_sector (dom w') = body_data_sector (dom w).

(** A home page with every element the script binds to, nothing loaded. *)
Definition blankElement : Element := {| textContent := ""; classList := [] |}.

Definition homeDom : Dom :=
  {| body_data_sector := None;
     status := Some "";
     card_visited_value := Some "";
     card_not_visited_value := Some "";
     card_total_value := Some "";
     card_visited_delta := Some blankElement;
     card_not_visited_delta := Some blankElement;
     card_total_delta := Some blankElement;
     muni_summary_table := Some "";
     muni_raw_table := Some "";
     visitsChart_canvas := true;
     municipality_filter := {| options := allMunicipalities; disabled := true |} |}.

Definition homePage : World :=
  {| currentFilter := {| sector := None; municipality := None |};
     sectorMeta :=
       [("abha", {| label := "أبها"; municipalities := Some ["X"; "Y"] |});
        ("khamis", {| label := "خميس مشيط"; municipalities := Some ["Z"] |})];
     visitsChart := None;
     dom := homeDom;
     requests := [];
     console := [];
     unhandled := [] |}.

(** The page of the sector "abha": the body carries [data-sector]. *)
Definition abhaPage : World :=
  withDom
    {| body_data_sector := Some "abha";
       status := Some "";
       card_visited_value := Some "";
       card_not_visited_value := Some "";
       card_total_value := Some "";
       card_visited_delta := Some blankElement;
       card_not_visited_delta := Some blankElement;
       card_total_delta := Some blankElement;
       muni_summary_table := None;
       muni_raw_table := None;
       visitsChart_canvas := true;
       municipality_filter := {| options := allMunicipalities; disabled := true |} |}
    homePage.

(** A chart answer for all data, one bar per sector. *)
Definition allSectorsChart : ChartData :=
  {| labels := ["أبها"; "خميس مشيط"];
     current_visited := [4; 7]%Z;
     current_not := [1; 2]%Z;
     cd_prev_visited := [];
     cd_prev_not := [];
     has_prev := false |}.

(** The home page after the chart of all data was drawn and the sector
    "abha" was then picked in the filter. *)
Definition abhaPickedAfterChart : World :=
  withFilter {| sector := Some "abha"; municipality := None |}
    (snd (loadChart (HttpOk (JObj allSectorsChart)) homePage)).

(** A computation keeps a relation between the worlds before and after
    it, however it completes. *)
Definition keeps (R : World -> World -> Prop) {A : Type} (c : Eff A) : Prop :=
  forall w, R w (snd (c w)).

(** No request was added. *)
Definition sameRequests (w w' : World) : Prop := requests w' = requests w.

(** The classification of section 4.2, following the words of the
    specification: a value is absent when its field is missing or null, and
    the date is unknown when it is absent or empty. *)
Inductive DeltaClass : Type :=
  | NoPriorRun
  | Increased
  | Decreased
  | Unchanged.

Definition absent {A : Type} (v : field A) : bool :=
  match v with
  | Val _ => false
  | _ => true
  end.

Definition unknownDate (v : field string) : bool :=
  match v with
  | Val s => negb (nonEmpty s)
  | _ => true
  end.

Definition classify (previous delta : field Z) (date : field string) : DeltaClass :=
  if absent previous || absent delta || unknownDate date then NoPriorRun
  else if gtZero delta then Increased
  else if ltZero delta then Decreased
  else Unchanged.

(** How a class is shown: the style class and the message. *)
Definition deltaStyle (c : DeltaClass) : string :=
  match c with
  | Increased => "delta-positive"
  | Decreased => "delta-negative"
  | NoPriorRun => "delta-neutral"
  | Unchanged => "delta-neutral"
  end.

Definition deltaMessage (c : DeltaClass) (delta : field Z) (date : field string)
    (label : string) : string :=
  let since := " مقارنةً بالتشغيل السابق (" ++ str (dateOrNull date) ++ ")" in
  match c with
  | NoPriorRun => "لا يوجد تشغيل سابق لـ " ++ label
  | Increased => "+" ++ fieldToString delta ++ since
  | Decreased => fieldToString delta ++ since
  | Unchanged => "لا تغيير" ++ since
  end.

Definition shownAs (c : DeltaClass) (delta : field Z) (date : field string)
    (label : string) (el : Element) : Element :=
  classList_add (deltaStyle c)
    (setText (deltaMessage c delta date label)
       (classList_remove ["delta-positive"; "delta-negative"; "delta-neutral"] el)).

(** A totals answer that carries the date of the previous run but neither
    previous values nor deltas. *)
Definition datedWithoutPrevious : TotalsResult :=
  {| visited := Val 5%Z; not_visited := Val 1%Z; total := Val 6%Z;
     prev_visited := Missing; prev_not_visited := Missing; prev_total := Missing;
     delta_visited := Missing; delta_not_visited := Missing; delta_total := Missing;
     prev_run_date := Val "2024-05-01" |}.



(* ================================================================== *)
(** ** The side menu (setupMenu) *)

(** [classList.contains(c)], [classList.remove(c)] and
    [classList.toggle(c)] on a class list. *)
Definition tokens_contains (c : string) (cs : list string) : bool :=
  existsb (String.eqb c) cs.

Definition tokens_remove (c : string) (cs : list string) : list string :=
  filter (fun x => negb (String.eqb x c)) cs.

Definition tokens_toggle (c : string) (cs : list string) : list string :=
  if tokens_contains c cs then tokens_remove c cs else cs ++ [c].

(** The class lists of [#side-menu] and [#menu-overlay]. *)
Record Menu : Type := {
  side_menu : list string;
  menu_overlay : list string
}.

(** The [click] listener of [#menu-btn]. *)
Definition onMenuButtonClick (m : Menu) : Menu :=
  {| side_menu := tokens_toggle "open" (side_menu m);
     menu_overlay := tokens_toggle "active" (menu_overlay m) |}.

(** The [click] listener of [#menu-overlay]. *)
Definition onOverlayClick (m : Menu) : Menu :=
  {| side_menu := tokens_remove "open" (side_menu m);
     menu_overlay := tokens_remove "active" (menu_overlay m) |}.

Inductive MenuEvent : Type :=
  | MenuButtonClicked
  | OverlayClicked.

(** [setupMenu]: the listeners are installed only if the button, the menu
    and the overlay all exist. *)
Definition setupMenu (menuBtn sideMenu overlay : bool) : bool :=
  if negb menuBtn || negb sideMenu || negb overlay then false else true.

(** One click on a page where [setupMenu] did or did not install the
    listeners. *)
Definition menuClick (installed : bool) (m : Menu) (ev : MenuEvent) : Menu :=
  if installed then
    match ev with
    | MenuButtonClicked => onMenuButtonClick m
    | OverlayClicked => onOverlayClick m
    end
  else m.

Definition menuClicks (installed : bool) (evs : list MenuEvent) (m : Menu) : Menu :=
  fold_left (menuClick installed) evs m.

(** The menu is shown and the overlay is active, or neither. *)
Definition menuOpen (m : Menu) : bool := tokens_contains "open" (side_menu m).

Definition overlayActive (m : Menu) : bool :=
  tokens_contains "active" (menu_overlay m).

(* ================================================================== *)
(** ** The upload form (setupUploadForm) *)

(** What [fetch("/api/process", ...)] gives: a rejection, a response with
    [ok] set, or one with [ok] unset and its [statusText]. *)
Inductive UploadAnswer : Type :=
  | UploadRejected
  | UploadAccepted (body : Json unit)
  | UploadRefused (statusText : string) (body : Json ErrorBody).

(** The text of [#upload-status], if the page has it, and what
    [console.error] received. *)
Record UploadPage : Type := {
  upload_status : option string;
  upload_console : list exn
}.

(** The [try] block of the [submit] listener, on the status line as the
    listener left it before the request: the status line after it, or
    what it throws.  The body of a refused upload is read off with
    [resp.json().catch(() => ({}))]; its [error] is looked at only on a
    page that has the status line. *)
Definition uploadAttempt (a : UploadAnswer) (statusDiv : option string)
    : completion (option string) :=
  match a with
  | UploadRejected => Throw NetworkError
  | UploadRefused statusText body =>
      let err :=
        match body with
        | Unparsable => Some {| error := Missing |}
        | JNull => None
        | JObj err => Some err
        end in
      match statusDiv with
      | None => Normal None
      | Some _ =>
          match err with
          | None => Throw TypeError
          | Some err => Normal (Some ("خطأ: " ++ errorOr (error err) statusText))
          end
      end
  | UploadAccepted body =>
      match body with
      | Unparsable => Throw SyntaxError
      | _ => Normal (assign "تمت المعالجة بنجاح." statusDiv)
      end
  end.

(** The [submit] listener of [#upload-form]. *)
Definition onUploadSubmit (a : UploadAnswer) (p : UploadPage) : UploadPage :=
  let statusDiv := assign "جاري رفع الملفات ..." (upload_status p) in
  match uploadAttempt a statusDiv with
  | Normal statusDiv' =>
      {| upload_status := statusDiv';
         upload_console := upload_console p |}
  | Throw err =>
      {| upload_status := assign "خطأ في الاتصال بالخادم." statusDiv;
         upload_console := upload_console p ++ [err] |}
  end.

(* ================================================================== *)
(** ** setupHomeFilters and the start of the page *)

(** What [console.error("failed to setup filters", e)] received: the error
    the function throws itself on a non-success answer, or one raised
    under it. *)
Inductive SetupFailure : Type :=
  | FailedMeta
  | Raised (e : exn).

(** The filter controls of the home page: the options of [#sector-filter]
    as (value, text) if the page has it, whether it has
    [#municipality-filter], whether the two [change] listeners are
    installed, and what the set-up logged. *)
Record FilterControls : Type := {
  sector_filter : option (list (string * string));
  has_municipality_filter : bool;
  listening : bool;
  setup_log : list SetupFailure
}.

Definition withSectorMeta (m : SectorMeta) (w : World) : World :=
  {| currentFilter := currentFilter w; sectorMeta := m;
     visitsChart := visitsChart w; dom := dom w; requests := requests w;
     console := console w; unhandled := unhandled w |}.

(** The option built for one entry of the metadata: [info.label || key]. *)
Definition sectorOption (entry : string * SectorInfo) : string * string :=
  (fst entry,
   if nonEmpty (label (snd entry)) then label (snd entry) else fst entry).

Definition setupFailed (c : FilterControls) (f : SetupFailure) : FilterControls :=
  {| sector_filter := sector_filter c;
     has_municipality_filter := has_municipality_filter c;
     listening := listening c;
     setup_log := setup_log c ++ [f] |}.

(** [setupHomeFilters].  A [null] body leaves [sectorMeta] without any
    sector before [Object.entries] throws. *)
Definition setupHomeFilters (r : FetchResult SectorMeta) (c : FilterControls)
    : Eff FilterControls :=
  bodySector <- gets getBodySector ;;
  if truthy bodySector then ret c
  else
    match sector_filter c with
    | None => ret c
    | Some sectorOptions =>
        if negb (has_municipality_filter c) then ret c
        else
          tryCatch
            (resp <- fetch "/api/meta/sectors" r ;;
             match resp with
             | NotOk _ => ret (setupFailed c FailedMeta)
             | Ok body =>
                 parsed <- json body ;;
                 modify (withSectorMeta
                           (match parsed with
                            | Some m => m
                            | None => []
                            end)) ;;
                 entries <- deref parsed ;;
                 ret {| sector_filter :=
                          Some (sectorOptions ++ map sectorOption entries)%list;
                        has_municipality_filter := has_municipality_filter c;
                        listening := true;
                        setup_log := setup_log c |}
             end)
            (fun e => ret (setupFailed c (Raised e)))
    end.

(** The [DOMContentLoaded] listener: [setupMenu] and [setupUploadForm] only
    install listeners; then the filters are set up and the three loads
    start. *)
Definition onDOMContentLoaded `{NumberOps} (meta : FetchResult SectorMeta)
    (a : Answers) (c : FilterControls) : Eff FilterControls :=
  c' <- setupHomeFilters meta c ;;
  detach (loadTotals (totalsAnswer a)) ;;
  detach (loadChart (chartAnswer a)) ;;
  detach (loadMunicipalityDetails (detailsAnswer a)) ;;
  ret c'.

(** A change of the sector or of the municipality, on a page whose
    listeners are installed. *)
Inductive FilterEvent : Type :=
  | SectorChanged (value : string)
  | MunicipalityChanged (value : string).

Definition onFilterEvent `{NumberOps} (ev : FilterEvent) (a : Answers) : Eff unit :=
  match ev with
  | SectorChanged value => onSectorChange value a
  | MunicipalityChanged value => onMunicipalityChange value a
  end.

(* ================================================================== *)
(** ** What the further properties observe *)



(** Which elements the page has. *)
Definition sameElements (w w' : World) : Prop :=
  visitsChart_canvas (dom w') = visitsChart_canvas (dom w)
  /\ isNull (muni_summary_table (dom w')) = isNull (muni_summary_table (dom w))
  /\ isNull (muni_raw_table (dom w')) = isNull (muni_raw_table (dom w)).

(** The requests of the three loaders for a scope, on a page. *)
Definition detailsRequests (w : World) (s : Scope) : list string :=
  if isNull (muni_summary_table (dom w)) || isNull (muni_raw_table (dom w))
  then []
  else match detailsEndpoint s with
       | Some url => [url]
       | None => []
       end.

Definition chartRequests (w : World) (s : Scope) : list string :=
  if visitsChart_canvas (dom w) then [chartEndpoint s] else [].

(** A filter state as the listeners leave it: no field holds the empty
    string. *)
Definition wellFormedFilter (f : FilterState) : Prop :=
  sector f <> Some "" /\ municipality f <> Some "".

(** The value of a hexadecimal digit, and the byte that a [%XX] triplet
    stands for (used to tell encoded names apart). *)
Definition hexValue (c : ascii) : nat :=
  let n := nat_of_ascii c in
  if (n <? 58)%nat then n - 48 else n - 55.

Definition percentDecode (hi lo : ascii) : ascii :=
  ascii_of_nat (16 * hexValue hi + hexValue lo).

(** ** Numbers the page prints as they are

    The counts of a JSON body are binary64 numbers.  An integer up to
    [Number.MAX_SAFE_INTEGER] in absolute value is held exactly, and
    [toString] prints it in plain decimal; beyond that the number is
    rounded, and from [1e21] on it is printed with an exponent. *)
Definition MAX_SAFE_INTEGER : Z := 9007199254740991.

Definition isSafeInteger (z : Z) : bool := (Z.abs z <=? MAX_SAFE_INTEGER)%Z.

Definition safeField (v : field Z) : bool :=
  match v with
  | Val z => isSafeInteger z
  | _ => true
  end.

(** A body with two counts, one of them [null]. *)
Definition twelveVisited : TotalsResult :=
  {| visited := Val 12%Z; not_visited := Null; total := Val 0%Z;
     prev_visited := Null; prev_not_visited := Null; prev_total := Null;
     delta_visited := Null; delta_not_visited := Null; delta_total := Null;
     prev_run_date := Null |}.

(** ** White space and letter case of the search

    [String.prototype.trim] removes from both ends the code points that
    ECMAScript counts as white space or as line terminators: U+0009 to
    U+000D, U+0020, U+00A0, U+1680, U+2000 to U+200A, U+2028, U+2029,
    U+202F, U+205F, U+3000 and U+FEFF.  Texts are held in UTF-8, so the
    code points are read off the bytes first. *)
Definition byteValue (c : ascii) : Z := Z.of_nat (nat_of_ascii c).

Definition continuation (c : ascii) : Z := byteValue c - 128.

(** The code points of a text in order, each with the bytes that encode
    it: one byte below 192, two below 224, three below 240, four from
    there on; a sequence cut short by the end of the text is taken byte
    by byte. *)
Fixpoint codePoints (s : string) : list (Z * string) :=
  match s with
  | EmptyString => []
  | String c1 s1 =>
      let b1 := byteValue c1 in
      if (b1 <? 192)%Z then (b1, String c1 "") :: codePoints s1
      else
        match s1 with
        | EmptyString => [(b1, String c1 "")]
        | String c2 s2 =>
            if (b1 <? 224)%Z then
              (((b1 - 192) * 64 + continuation c2)%Z, String c1 (String c2 ""))
              :: codePoints s2
            else
              match s2 with
              | EmptyString => (b1, String c1 "") :: codePoints s1
              | String c3 s3 =>
                  if (b1 <? 240)%Z then
                    ((((b1 - 224) * 64 + continuation c2) * 64
                      + continuation c3)%Z,
                     String c1 (String c2 (String c3 "")))
                    :: codePoints s3
                  else
                    match s3 with
                    | EmptyString => (b1, String c1 "") :: codePoints s1
                    | String c4 s4 =>
                        (((((b1 - 240) * 64 + continuation c2) * 64
                           + continuation c3) * 64 + continuation c4)%Z,
                         String c1 (String c2 (String c3 (String c4 ""))))
                        :: codePoints s4
                    end
              end
        end
  end.

Definition isWhiteSpace (codePoint : Z) : bool :=
  existsb (Z.eqb codePoint)
    [9; 10; 11; 12; 13; 32; 160; 5760; 8232; 8233; 8239; 8287; 12288; 65279]%Z
  || ((8192 <=? codePoint) && (codePoint <=? 8202))%Z.

Fixpoint dropWhiteSpace (l : list (Z * string)) : list (Z * string) :=
  match l with
  | [] => []
  | (codePoint, _) :: rest =>
      if isWhiteSpace codePoint then dropWhiteSpace rest else l
  end.

(** [s.trim()] *)
Definition jsTrim (s : string) : string :=
  concatAll
    (map snd (rev (dropWhiteSpace (rev (dropWhiteSpace (codePoints s)))))).

(** A text of white space only. *)
Definition isBlank (s : string) : bool :=
  forallb (fun p => isWhiteSpace (fst p)) (codePoints s).

(** A text of ASCII characters only. *)
Fixpoint isAscii (s : string) : bool :=
  match s with
  | EmptyString => true
  | String c s' => (byteValue c <? 128)%Z && isAscii s'
  end.

(** Whether [text] contains [query], the letters A to Z of both taken as
    a to z. *)
Definition containsIgnoringCase (text query : string) : bool :=
  includes (mapString asciiLower text) (mapString asciiLower query).

(** The two builtins with the white space of ECMAScript and the case of
    the letters A to Z.  Arabic text and digits have no case, so
    [toLowerCase] leaves them as they are; only a text with a cased letter
    outside ASCII is lowered further by the builtin. *)
Definition basicLatinText : TextOps := {|
  trim := jsTrim;
  toLowerCase := mapString asciiLower;
  trim_empty := eq_refl;
  toLowerCase_empty := eq_refl
|}.

(** U+00A0 (no-break space) and U+0009 (tab). *)
Definition nbsp : string :=
  String (ascii_of_nat 194) (String (ascii_of_nat 160) EmptyString).

Definition tab : string := String (ascii_of_nat 9) EmptyString.

(** Three rendered rows, the second of them for Khamis. *)
Definition threeRows : list RowEl :=
  [ {| row_textContent := "Abha12"; row_display := "" |};
    {| row_textContent := "Khamis Mushait7"; row_display := "none" |};
    {| row_textContent := "Bisha3"; row_display := "" |} ].

(** ** Tables within the reach of the row type

    The renderer is followed on column names that no object inherits, and
    on cells that are [null], a string or a safe integer. *)
Definition ownNames (names : list string) : bool :=
  forallb (fun c => negb (inherited c)) names.



(* ================================================================== *)
(** * Properties *)

(** ** Scope resolution *)

Lemma orNull_truthy (v : option string) : truthy (orNull v) = truthy v.
Proof. unfold orNull. destruct (truthy v) eqn:E; [rewrite E|]; reflexivity. Qed.

Lemma orNull_Some (v : option string) (s : string) :
  orNull v = Some s -> v = Some s /\ truthy v = true.
Proof.
  unfold orNull. destruct (truthy v) eqn:E; [|discriminate].
  intros ->. split; reflexivity.
Qed.

Lemma orNull_None (v : option string) : orNull v = None -> truthy v = false.
Proof.
  unfold orNull. destruct (truthy v) eqn:E; [|reflexivity].
  intros ->. discriminate E.
Qed.

(** The URL of [loadTotals] is the totals endpoint of the scope. *)
Lemma totalsUrl_scope (w : World) : totalsUrl w = totalsEndpoint (resolveScope w).
Proof.
  unfold totalsUrl, resolveScope, getSectorKey, getMunicipalityFilter, getBodySector.
  destruct (orNull (body_data_sector (dom w))) as [b|] eqn:Eb.
  - destruct (orNull_Some _ _ Eb) as [EX Et]. rewrite EX in Et.
    rewrite Et. reflexivity.
  - cbn [truthy].
    destruct (orNull (municipality (currentFilter w))) as [m|] eqn:Em.
    + apply orNull_Some in Em as [-> Em]. rewrite Em. reflexivity.
    + apply orNull_None in Em. rewrite Em.
      destruct (orNull (sector (currentFilter w))) as [k|] eqn:Ek.
      * apply orNull_Some in Ek as [-> Ek]. rewrite Ek. reflexivity.
      * apply orNull_None in Ek. rewrite Ek. reflexivity.
Qed.

(** The URL of [loadChart] is the chart endpoint of the scope. *)
Lemma chartQuery_scope (w : World) :
  "/api/chart-data/compare" ++ chartQuery w = chartEndpoint (resolveScope w).
Proof.
  unfold chartQuery, resolveScope, getSectorKey, getMunicipalityFilter, getBodySector.
  destruct (orNull (body_data_sector (dom w))) as [b|] eqn:Eb.
  - destruct (orNull_Some _ _ Eb) as [EX Et]. rewrite EX in Et.
    rewrite Et. reflexivity.
  - cbn [truthy].
    destruct (orNull (municipality (currentFilter w))) as [m|] eqn:Em.
    + apply orNull_Some in Em as [-> Em]. rewrite Em. reflexivity.
    + apply orNull_None in Em. rewrite Em.
      destruct (orNull (sector (currentFilter w))) as [k|] eqn:Ek.
      * apply orNull_Some in Ek as [-> Ek]. rewrite Ek. reflexivity.
      * apply orNull_None in Ek. rewrite Ek. reflexivity.
Qed.

(** ** Loaders: failures, frame and idempotence *)

Lemma assign_assign {A : Type} (a b : A) (el : option A) :
  assign b (assign a el) = assign b el.
Proof. destruct el; reflexivity. Qed.

Lemma loadTotals_never_throws (r : FetchResult TotalsResult) (w : World) :
  fst (loadTotals r w) = Normal tt.
Proof. destruct r as [|[| |data]|b]; reflexivity. Qed.

(** C7: when the totals request is rejected or answered with a non-success
    status, [loadTotals] completes normally (nothing is thrown past it);
    on a page that has the status line, the line then reads the
    connection-error text after a rejection and the no-data text after an
    HTTP error, whatever it read before (a page without the line gets
    none); and the card values and delta slots are as they were. *)
Theorem loadTotals_failure_keeps_cards (w : World) :
  (forall r, fst (loadTotals r w) = Normal tt)
  /\ (let w' := snd (loadTotals Rejected w) in
      match status (dom w) with
      | Some _ => status (dom w') = Some "خطأ في الاتصال بالخادم."
      | None => status (dom w') = None
      end
      /\ cardSlots (dom w') = cardSlots (dom w))
  /\ (forall b,
      let w' := snd (loadTotals (HttpError b) w) in
      match status (dom w) with
      | Some _ => status (dom w') = Some "لا توجد بيانات متاحة."
      | None => status (dom w') = None
      end
      /\ cardSlots (dom w') = cardSlots (dom w)).
Proof.
  split; [intro r; apply loadTotals_never_throws|].
  split; [|intro b]; cbn; (split; [|reflexivity]);
    destruct (status (dom w)); reflexivity.
Qed.

Lemma existsb_filter_out (c : string) (p : string -> bool) (l : list string) :
  p c = false -> existsb (String.eqb c) (filter p l) = false.
Proof.
  intro Hc. induction l as [|x l IH]; [reflexivity|].
  cbn. destruct (p x) eqn:Hx; [|exact IH].
  cbn. rewrite IH. destruct (String.eqb c x) eqn:E; [|reflexivity].
  apply String.eqb_eq in E. subst x. congruence.
Qed.

Lemma filter_filter_app (p : string -> bool) (l : list string) (c : string) :
  p c = false -> filter p (filter p l ++ [c]) = filter p l.
Proof.
  intro Hc. rewrite filter_app. cbn. rewrite Hc, app_nil_r.
  induction l as [|x l IH]; [reflexivity|].
  cbn. destruct (p x) eqn:Hx; [|exact IH].
  cbn. rewrite Hx, IH. reflexivity.
Qed.

(** Giving a slot the text and class it already got changes nothing. *)
Lemma restyle_twice (cs : list string) (c t : string) (el : Element) :
  existsb (String.eqb c) cs = true ->
  let once := classList_add c (setText t (classList_remove cs el)) in
  classList_add c (setText t (classList_remove cs once)) = once.
Proof.
  intro Hc.
  assert (Hp : (fun x => negb (existsb (String.eqb x) cs)) c = false)
    by (cbn; rewrite Hc; reflexivity).
  unfold classList_add, setText, classList_remove. cbn.
  rewrite (existsb_filter_out c _ (classList el) Hp).
  rewrite (filter_filter_app _ (classList el) c Hp).
  rewrite (existsb_filter_out c _ (classList el) Hp).
  reflexivity.
Qed.

Lemma updateDelta_twice (prevDate : option string) (el : option Element)
    (prevVal : option jsnum) (deltaVal : field Z) (label : string) :
  updateDelta prevDate (updateDelta prevDate el prevVal deltaVal label)
              prevVal deltaVal label
  = updateDelta prevDate el prevVal deltaVal label.
Proof.
  destruct el as [el|]; [|reflexivity].
  unfold updateDelta. f_equal.
  destruct (isNull prevVal || isNullField deltaVal || isNull prevDate);
    [apply restyle_twice; reflexivity|].
  destruct (gtZero deltaVal); [apply restyle_twice; reflexivity|].
  destruct (ltZero deltaVal); apply restyle_twice; reflexivity.
Qed.

(** The page after the cards were rendered. *)
Lemma renderTotals_dom (data : TotalsResult) (w : World) :
  let prevDate := dateOrNull (prev_run_date data) in
  let d := dom w in
  dom (snd (renderTotals data w)) =
  {| body_data_sector := body_data_sector d;
     status := assign "" (status d);
     card_visited_value := assign (numberToString (numberOrZero (visited data))) (card_visited_value d);
     card_not_visited_value := assign (numberToString (numberOrZero (not_visited data))) (card_not_visited_value d);
     card_total_value := assign (numberToString (numberOrZero (total data))) (card_total_value d);
     card_visited_delta :=
       updateDelta prevDate (card_visited_delta d)
         (numberUnlessNull (prev_visited data)) (delta_visited data) "تمت الزيارة";
     card_not_visited_delta :=
       updateDelta prevDate (card_not_visited_delta d)
         (numberUnlessNull (prev_not_visited data)) (delta_not_visited data) "لم تزار";
     card_total_delta :=
       updateDelta prevDate (card_total_delta d)
         (numberUnlessNull (prev_total data)) (delta_total data) "اجمالي الزيارات";
     muni_summary_table := muni_summary_table d;
     muni_raw_table := muni_raw_table d;
     visitsChart_canvas := visitsChart_canvas d;
     municipality_filter := municipality_filter d |}.
Proof. reflexivity. Qed.

Lemma loadTotals_ok (data : TotalsResult) (w : World) :
  loadTotals (HttpOk (JObj data)) w
  = renderTotals data
      (withRequests (requests w ++ [totalsUrl w])
         (withDom (setStatusText "جاري تحميل البيانات..." (dom w)) w)).
Proof.
  unfold loadTotals, tryCatch, bind, fetch, json, deref, gets, modifyDom, modify, ret.
  cbn -[renderTotals totalsUrl setStatusText].
  destruct (renderTotals data _) as [[[]|e] w'] eqn:E; [reflexivity|].
  exfalso. revert E. unfold renderTotals, bind, modifyDom, modify. discriminate.
Qed.

Lemma loadTotals_dom_idempotent (r : FetchResult TotalsResult) (w : World) :
  dom (snd (loadTotals r (snd (loadTotals r w)))) = dom (snd (loadTotals r w)).
Proof.
  destruct r as [|[| |data]|b];
    try (cbn; unfold setStatusText; cbn; rewrite !assign_assign; reflexivity).
  rewrite !loadTotals_ok, !renderTotals_dom. cbv zeta.
  cbn [dom withRequests withDom setStatusText body_data_sector status
       card_visited_value card_not_visited_value card_total_value
       card_visited_delta card_not_visited_delta card_total_delta
       muni_summary_table muni_raw_table visitsChart_canvas municipality_filter].
  rewrite ?renderTotals_dom. cbv zeta.
  cbn [dom withRequests withDom setStatusText body_data_sector status
       card_visited_value card_not_visited_value card_total_value
       card_visited_delta card_not_visited_delta card_total_delta
       muni_summary_table muni_raw_table visitsChart_canvas municipality_filter].
  rewrite !assign_assign, !updateDelta_twice. reflexivity.
Qed.

(** *** Frame rules *)

Section Frame.
Variable R : World -> World -> Prop.
Hypothesis R_refl : forall w, R w w.
Hypothesis R_trans : forall w1 w2 w3, R w1 w2 -> R w2 w3 -> R w1 w3.

Lemma keeps_ret {A : Type} (a : A) : keeps R (ret a).
Proof. intro w. apply R_refl. Qed.

Lemma keeps_throw {A : Type} (e : exn) : keeps R (@throw A e).
Proof. intro w. apply R_refl. Qed.

Lemma keeps_gets {A : Type} (f : World -> A) : keeps R (gets f).
Proof. intro w. apply R_refl. Qed.

Lemma keeps_json {A : Type} (b : Json A) : keeps R (json b).
Proof. intro w. destruct b; apply R_refl. Qed.

Lemma keeps_deref {A : Type} (v : option A) : keeps R (deref v).
Proof. intro w. destruct v; apply R_refl. Qed.

Lemma keeps_bind {A B : Type} (c : Eff A) (k : A -> Eff B) :
  keeps R c -> (forall a, keeps R (k a)) -> keeps R (bind c k).
Proof.
  intros Hc Hk w. unfold bind. specialize (Hc w).
  destruct (c w) as [[a|e] w1]; cbn in *; [|exact Hc].
  exact (R_trans _ _ _ Hc (Hk a w1)).
Qed.

Lemma keeps_tryCatch {A : Type} (body : Eff A) (handler : exn -> Eff A) :
  keeps R body -> (forall e, keeps R (handler e)) ->
  keeps R (tryCatch body handler).
Proof.
  intros Hb Hh w. unfold tryCatch. specialize (Hb w).
  destruct (body w) as [[a|e] w1]; cbn in *; [exact Hb|].
  exact (R_trans _ _ _ Hb (Hh e w1)).
Qed.
End Frame.

Lemma sameControls_refl (w : World) : sameControls w w.
Proof. repeat split. Qed.

Lemma sameControls_trans (w1 w2 w3 : World) :
  sameControls w1 w2 -> sameControls w2 w3 -> sameControls w1 w3.
Proof.
  unfold sameControls. intros (A1 & A2 & A3 & A4) (B1 & B2 & B3 & B4).
  repeat split; congruence.
Qed.

Lemma sameRequests_refl (w : World) : sameRequests w w.
Proof. reflexivity. Qed.

Lemma sameRequests_trans (w1 w2 w3 : World) :
  sameRequests w1 w2 -> sameRequests w2 w3 -> sameRequests w1 w3.
Proof. unfold sameRequests. congruence. Qed.

(** A write to the page that leaves the body attribute and the
    municipality control alone. *)
Lemma controls_modifyDom (f : Dom -> Dom) :
  (forall d, municipality_filter (f d) = municipality_filter d) ->
  (forall d, body_data_sector (f d) = body_data_sector d) ->
  keeps sameControls (modifyDom f).
Proof. intros Hm Hb w. repeat split; cbn; [apply Hm | apply Hb]. Qed.

Lemma controls_consoleError (e : exn) : keeps sameControls (consoleError e).
Proof. intro w. repeat split. Qed.

Lemma controls_fetch {A : Type} (url : string) (r : FetchResult A) :
  keeps sameControls (fetch url r).
Proof. intro w. destruct r; repeat split. Qed.

Lemma controls_withChart (f : World -> option Chart) :
  keeps sameControls (modify (fun w => withChart (f w) w)).
Proof. intro w. repeat split. Qed.

Lemma requests_modifyDom (f : Dom -> Dom) : keeps sameRequests (modifyDom f).
Proof. intro w. reflexivity. Qed.

Lemma requests_consoleError (e : exn) : keeps sameRequests (consoleError e).
Proof. intro w. reflexivity. Qed.

Lemma requests_withChart (f : World -> option Chart) :
  keeps sameRequests (modify (fun w => withChart (f w) w)).
Proof. intro w. reflexivity. Qed.

Ltac frame_step refl trans :=
  first
    [ apply (keeps_ret _ refl)
    | apply (keeps_throw _ refl)
    | apply (keeps_gets _ refl)
    | apply (keeps_json _ refl)
    | apply (keeps_deref _ refl)
    | apply controls_consoleError
    | apply controls_fetch
    | apply controls_withChart
    | apply controls_modifyDom; reflexivity
    | apply requests_modifyDom
    | apply requests_consoleError
    | apply requests_withChart
    | apply (keeps_bind _ trans); [|intro]
    | apply (keeps_tryCatch _ trans); [|intro]
    | match goal with
      | |- keeps _ (if ?b then _ else _) => destruct b
      | |- keeps _ (match ?x with _ => _ end) => destruct x
      end ].

Ltac controls := repeat frame_step sameControls_refl sameControls_trans.
Ltac quiet := repeat frame_step sameRequests_refl sameRequests_trans.

Lemma loadTotals_controls (r : FetchResult TotalsResult) :
  keeps sameControls (loadTotals r).
Proof. unfold loadTotals, renderTotals. controls. Qed.

Lemma loadChart_controls (r : FetchResult ChartData) :
  keeps sameControls (loadChart r).
Proof. unfold loadChart. controls. Qed.

Lemma loadMunicipalityDetails_controls `{NumberOps}
    (r : FetchResult DetailsResult) :
  keeps sameControls (loadMunicipalityDetails r).
Proof. unfold loadMunicipalityDetails, renderDetails. controls. Qed.

Lemma resolveScope_sameControls (w w' : World) :
  sameControls w w' -> resolveScope w' = resolveScope w.
Proof.
  intros (Hf & _ & _ & Hb). unfold resolveScope. rewrite Hf, Hb. reflexivity.
Qed.

(** C9: none of the three loaders writes to the filter state, whatever the
    network answers; so the scope is the same after a load, and a second
    [loadTotals] on the same answer requests the same URL and leaves on the
    page exactly what the first one rendered, the numeric card values
    included. *)
Theorem loaders_keep_filter `{NumberOps} (w : World)
    (rt : FetchResult TotalsResult) (rc : FetchResult ChartData)
    (rd : FetchResult DetailsResult) :
  currentFilter (snd (loadTotals rt w)) = currentFilter w
  /\ currentFilter (snd (loadChart rc w)) = currentFilter w
  /\ currentFilter (snd (loadMunicipalityDetails rd w)) = currentFilter w
  /\ resolveScope (snd (loadTotals rt w)) = resolveScope w
  /\ (let once := snd (loadTotals rt w) in
      let twice := snd (loadTotals rt once) in
      totalsUrl once = totalsUrl w
      /\ cardValues (dom twice) = cardValues (dom once)
      /\ dom twice = dom once).
Proof.
  pose proof (loadTotals_controls rt w) as Ht.
  split; [apply Ht|].
  split; [apply loadChart_controls|].
  split; [apply loadMunicipalityDetails_controls|].
  pose proof (resolveScope_sameControls _ _ Ht) as Hs.
  split; [exact Hs|].
  cbv zeta. rewrite !totalsUrl_scope, Hs.
  split; [reflexivity|].
  rewrite loadTotals_dom_idempotent. split; reflexivity.
Qed.

(** ** Requests follow the scope *)

Lemma bind_gets {A B : Type} (f : World -> A) (k : A -> Eff B) (w : World) :
  bind (gets f) k w = k (f w) w.
Proof. reflexivity. Qed.

Lemma bind_modifyDom {B : Type} (f : Dom -> Dom) (k : unit -> Eff B) (w : World) :
  bind (modifyDom f) k w = k tt (withDom (f (dom w)) w).
Proof. reflexivity. Qed.

(** A guarded [fetch] adds its URL, if what follows adds nothing. *)
Lemma requests_try_fetch {A B : Type} (url : string) (r : FetchResult A)
    (k : Response A -> Eff B) (h : exn -> Eff B) (w : World) :
  (forall resp, keeps sameRequests (k resp)) ->
  (forall e, keeps sameRequests (h e)) ->
  requests (snd (tryCatch (bind (fetch url r) k) h w)) = (requests w ++ [url])%list.
Proof.
  intros Hk Hh. unfold tryCatch, bind at 1.
  set (w1 := withRequests (requests w ++ [url])%list w).
  assert (Hf : fetch url r w
               = (match r with
                  | Rejected => Throw NetworkError
                  | HttpOk b => Normal (Ok b)
                  | HttpError b => Normal (NotOk b)
                  end, w1)) by (destruct r; reflexivity).
  rewrite Hf. destruct r as [|b|b].
  - rewrite (Hh NetworkError w1). reflexivity.
  - specialize (Hk (Ok b) w1). destruct (k (Ok b) w1) as [[x|e] w2]; cbn in *.
    + exact Hk.
    + rewrite (Hh e w2). exact Hk.
  - specialize (Hk (NotOk b) w1). destruct (k (NotOk b) w1) as [[x|e] w2]; cbn in *.
    + exact Hk.
    + rewrite (Hh e w2). exact Hk.
Qed.

Lemma loadTotals_request (r : FetchResult TotalsResult) (w : World) :
  requests (snd (loadTotals r w))
  = (requests w ++ [totalsEndpoint (resolveScope w)])%list.
Proof.
  rewrite <- totalsUrl_scope. unfold loadTotals.
  rewrite bind_modifyDom, bind_gets, requests_try_fetch; [reflexivity| |].
  - intro resp. unfold renderTotals. quiet.
  - intro e. quiet.
Qed.

Lemma loadChart_request (r : FetchResult ChartData) (w : World) :
  requests (snd (loadChart r w))
  = (requests w
     ++ (if visitsChart_canvas (dom w)
         then [chartEndpoint (resolveScope w)] else []))%list.
Proof.
  rewrite <- chartQuery_scope. unfold loadChart. rewrite bind_gets.
  destruct (visitsChart_canvas (dom w)); cbn [negb];
    [|cbn; rewrite app_nil_r; reflexivity].
  rewrite bind_gets, requests_try_fetch; [reflexivity| |].
  - intro resp. quiet.
  - intro e. quiet.
Qed.

Lemma detailsEndpoint_scope (w : World) :
  detailsEndpoint (resolveScope w)
  = if truthy (getBodySector w) then None
    else if truthy (getMunicipalityFilter w) then
      Some ("/api/municipality/"
            ++ encodeURIComponent (str (getMunicipalityFilter w)) ++ "/details")
    else None.
Proof.
  unfold resolveScope, getMunicipalityFilter, getBodySector.
  destruct (orNull (body_data_sector (dom w))) as [b|] eqn:Eb.
  - destruct (orNull_Some _ _ Eb) as [EX Et]. rewrite EX in Et.
    rewrite Et. reflexivity.
  - cbn [truthy].
    destruct (orNull (municipality (currentFilter w))) as [m|] eqn:Em.
    + apply orNull_Some in Em as [-> Em]. rewrite Em. reflexivity.
    + apply orNull_None in Em. rewrite Em.
      destruct (orNull (sector (currentFilter w))); reflexivity.
Qed.

Lemma loadMunicipalityDetails_request `{NumberOps}
    (r : FetchResult DetailsResult) (w : World) :
  requests (snd (loadMunicipalityDetails r w))
  = (requests w
     ++ (if isNull (muni_summary_table (dom w)) || isNull (muni_raw_table (dom w))
         then []
         else match detailsEndpoint (resolveScope w) with
              | Some url => [url]
              | None => []
              end))%list.
Proof.
  rewrite detailsEndpoint_scope. unfold loadMunicipalityDetails.
  rewrite !bind_gets.
  destruct (isNull (muni_summary_table (dom w)) || isNull (muni_raw_table (dom w)));
    [cbn; rewrite app_nil_r; reflexivity|].
  rewrite bind_gets.
  destruct (truthy (getBodySector w));
    [cbn; rewrite app_nil_r; reflexivity|].
  rewrite bind_gets.
  destruct (truthy (getMunicipalityFilter w)); cbn [negb];
    [|cbn; rewrite app_nil_r; reflexivity].
  rewrite !bind_modifyDom, requests_try_fetch; [reflexivity| |].
  - intro resp. unfold renderDetails. quiet.
  - intro e. quiet.
Qed.

(** C2: each loader requests the endpoint of the resolved scope (the
    detail loader has an endpoint for a municipality only, and requests
    nothing otherwise).  On a page bound to a sector the scope is that
    sector whatever the filter holds; on any other page it is the selected
    municipality, else the selected sector, else all data. *)
Theorem scope_resolution (w : World) :
  (forall r, requests (snd (loadTotals r w))
             = (requests w ++ [totalsEndpoint (resolveScope w)])%list)
  /\ (forall r, requests (snd (loadChart r w))
                = (requests w
                   ++ (if visitsChart_canvas (dom w)
                       then [chartEndpoint (resolveScope w)] else []))%list)
  /\ (forall (N : NumberOps) r,
        requests (snd (loadMunicipalityDetails r w))
        = (requests w
           ++ (if isNull (muni_summary_table (dom w))
                  || isNull (muni_raw_table (dom w))
               then []
               else match detailsEndpoint (resolveScope w) with
                    | Some url => [url]
                    | None => []
                    end))%list)
  /\ (forall boundKey,
        getBodySector w = Some boundKey ->
        forall f, resolveScope (withFilter f w) = BySector boundKey)
  /\ (getBodySector w = None ->
        match orNull (municipality (currentFilter w)),
              orNull (sector (currentFilter w)) with
        | Some name, _ => resolveScope w = ByMunicipality name
        | None, Some key => resolveScope w = BySector key
        | None, None => resolveScope w = AllData
        end).
Proof.
  split; [intro r; apply loadTotals_request|].
  split; [intro r; apply loadChart_request|].
  split; [intros N r; apply loadMunicipalityDetails_request|].
  unfold getBodySector, resolveScope. split.
  - intros boundKey Hb f. cbn. rewrite Hb. reflexivity.
  - intros ->.
    destruct (orNull (municipality (currentFilter w)));
      [|destruct (orNull (sector (currentFilter w)))]; reflexivity.
Qed.

(** On the page bound to "abha" the scope is that sector, although the
    filter holds a sector and a municipality. *)
Lemma scope_resolution_bound_page :
  resolveScope
    (withFilter {| sector := Some "khamis"; municipality := Some "X" |} abhaPage)
  = BySector "abha".
Proof.
  exact (proj1 (proj2 (proj2 (proj2 (scope_resolution abhaPage))))
           "abha" eq_refl
           {| sector := Some "khamis"; municipality := Some "X" |}).
Defined.

Example scope_home_municipality_first :
  resolveScope
    (withFilter {| sector := Some "khamis"; municipality := Some "X" |} homePage)
  = ByMunicipality "X".
Proof. reflexivity. Qed.

(** ** A failed chart load *)

(** C3: when the chart request is answered with a non-success status,
    [loadChart] returns without a word and without touching the chart: the
    instance drawn before stays, and where none was drawn none appears. *)
Theorem failed_chart_load_leaves_chart (w : World) (b : Json ErrorBody) :
  let w' := snd (loadChart (HttpError b) w) in
  fst (loadChart (HttpError b) w) = Normal tt
  /\ visitsChart w' = visitsChart w
  /\ shownChart w' = shownChart w
  /\ dom w' = dom w
  /\ console w' = console w.
Proof.
  unfold loadChart, bind, gets, shownChart. cbn.
  destruct (visitsChart_canvas (dom w)); repeat split.
Qed.

(** The chart of all data was drawn, the sector "abha" was picked, and the
    chart request for it failed: the canvas still shows the bars of all
    sectors. *)
Lemma failed_chart_load_shows_stale_chart :
  exists c,
    shownChart (snd (loadChart (HttpError JNull) abhaPickedAfterChart)) = Some c
    /\ chart_labels c = ["أبها"; "خميس مشيط"]
    /\ resolveScope abhaPickedAfterChart = BySector "abha".
Proof.
  eexists. split; [reflexivity|]. split; reflexivity.
Qed.

(** ** The sector listener *)

Lemma detach_frame (c : Eff unit) (w : World) :
  sameControls w (snd (c w)) ->
  fst (detach c w) = Normal tt /\ sameControls w (snd (detach c w)).
Proof.
  unfold detach. destruct (c w) as [[[]|e] w']; cbn; intro Hc; split;
    try reflexivity; exact Hc.
Qed.

Lemma bind_detach (c : Eff unit) (k : Eff unit) (w : World) :
  bind (detach c) (fun _ => k) w = k (snd (detach c w)).
Proof.
  unfold bind, detach. destruct (c w) as [[[]|e] w']; reflexivity.
Qed.

Lemma reloadAll_frame `{NumberOps} (a : Answers) (w : World) :
  fst (reloadAll a w) = Normal tt /\ sameControls w (snd (reloadAll a w)).
Proof.
  unfold reloadAll. rewrite !bind_detach.
  set (w1 := snd (detach (loadMunicipalityDetails (detailsAnswer a)) w)).
  set (w2 := snd (detach (loadTotals (totalsAnswer a)) w1)).
  assert (H1 : sameControls w w1)
    by apply detach_frame, loadMunicipalityDetails_controls.
  assert (H2 : sameControls w1 w2) by apply detach_frame, loadTotals_controls.
  destruct (detach_frame (loadChart (chartAnswer a)) w2) as [Hn H3];
    [apply loadChart_controls|].
  split; [exact Hn|].
  eapply sameControls_trans; [exact H1|].
  eapply sameControls_trans; [exact H2 | exact H3].
Qed.

(** The listener writes the filter and the municipality control, then
    starts the three loads. *)
Lemma onSectorChange_reloads `{NumberOps} (value : string) (a : Answers) (w : World) :
  exists w1,
    onSectorChange value a w = reloadAll a w1
    /\ currentFilter w1
       = {| sector := if nonEmpty value then Some value else None;
            municipality := None |}
    /\ municipality_filter (dom w1)
       = (if nonEmpty value then
            {| options :=
                 allMunicipalities
                 ++ map (fun m => (m, m)) (municipalitiesOf (sectorMeta w) value);
               disabled := false |}
          else {| options := allMunicipalities; disabled := true |}).
Proof.
  unfold onSectorChange. destruct (nonEmpty value) eqn:Ev; cbn [negb].
  - eexists. split; [reflexivity|]. split; [reflexivity|].
    cbn. unfold municipalitiesOf.
    destruct (metaLookup (sectorMeta w) value) as [info|]; [|reflexivity].
    destruct (municipalities info); reflexivity.
  - eexists. split; [reflexivity|]. split; reflexivity.
Qed.

Lemma metaLookup_find (m : SectorMeta) (k : string) :
  metaLookup m k = option_map snd (find (fun e => String.eqb (fst e) k) m).
Proof.
  induction m as [|[k' i] m IH]; [reflexivity|].
  cbn. destruct (String.eqb k' k); [reflexivity | exact IH].
Qed.

(** C6: after the sector listener has run on a value, the municipality of
    the filter is none.  For a sector, the filter holds it, the
    municipality control is enabled, and its options are the option for
    all, with the empty value, followed by one option per municipality
    that the entry of that sector in the metadata lists, in order, value
    and text both the name (none when the sector has no entry or the
    entry no list).  For no sector, the filter holds no sector and the
    control is disabled with the option for all alone.  The listener
    throws nothing. *)
Theorem sector_change_resets_municipality `{NumberOps}
    (value : string) (a : Answers) (w : World) :
  let w' := snd (onSectorChange value a w) in
  let listed :=
    match find (fun entry => String.eqb (fst entry) value) (sectorMeta w) with
    | Some (_, {| municipalities := Some names |}) => names
    | _ => []
    end in
  fst (onSectorChange value a w) = Normal tt
  /\ municipality (currentFilter w') = None
  /\ match value with
     | String _ _ =>
         sector (currentFilter w') = Some value
         /\ disabled (municipality_filter (dom w')) = false
         /\ options (municipality_filter (dom w'))
            = ("", "كل البلديات") :: map (fun name => (name, name)) listed
     | EmptyString =>
         sector (currentFilter w') = None
         /\ disabled (municipality_filter (dom w')) = true
         /\ options (municipality_filter (dom w')) = [("", "كل البلديات")]
     end.
Proof.
  cbv zeta.
  destruct (onSectorChange_reloads value a w) as (w1 & -> & Hf & Hm).
  destruct (reloadAll_frame a w1) as [Hn (Hf' & _ & Hm' & _)].
  rewrite Hf', Hm', Hf, Hm.
  split; [exact Hn|]. split; [reflexivity|].
  destruct value as [|c value]; cbn [nonEmpty String.eqb negb];
    [repeat split|].
  split; [reflexivity|]. split; [reflexivity|].
  cbn [options]. unfold municipalitiesOf, allMunicipalities.
  rewrite metaLookup_find.
  destruct (find _ (sectorMeta w)) as [[k [l [ms|]]]|]; reflexivity.
Qed.

(** Picking "abha" on the home page, then no sector. *)
Example sector_then_no_sector `{NumberOps} (a : Answers) :
  let picked := snd (onSectorChange "abha" a homePage) in
  let cleared := snd (onSectorChange "" a picked) in
  municipality_filter (dom picked)
  = {| options := [("", "كل البلديات"); ("X", "X"); ("Y", "Y")];
       disabled := false |}
  /\ currentFilter picked = {| sector := Some "abha"; municipality := None |}
  /\ municipality_filter (dom cleared)
     = {| options := [("", "كل البلديات")]; disabled := true |}
  /\ currentFilter cleared = {| sector := None; municipality := None |}.
Proof.
  cbv zeta.
  destruct (onSectorChange_reloads "abha" a homePage) as (w1 & -> & Hf1 & Hm1).
  destruct (reloadAll_frame a w1) as [_ (Hf1' & _ & Hm1' & _)].
  destruct (onSectorChange_reloads "" a (snd (reloadAll a w1)))
    as (w2 & -> & Hf2 & Hm2).
  destruct (reloadAll_frame a w2) as [_ (Hf2' & _ & Hm2' & _)].
  rewrite Hf1', Hm1', Hf1, Hm1, Hf2', Hm2', Hf2, Hm2.
  repeat split.
Qed.
(** ** The delta classifier *)

(** On fields that are null or hold a number, [updateDelta] shows the class
    of the specification. *)
Lemma updateDelta_classify (el : Element) (previous delta : field Z)
    (date : field string) (label : string) :
  previous <> Missing -> delta <> Missing ->
  updateDelta (dateOrNull date) (Some el) (numberUnlessNull previous) delta label
  = Some (shownAs (classify previous delta date) delta date label el).
Proof.
  intros Hp Hd. unfold updateDelta, shownAs, classify.
  assert (Hdate : isNull (dateOrNull date) = unknownDate date).
  { destruct date as [| |s]; try reflexivity.
    unfold dateOrNull, orNull, unknownDate. cbn [truthy].
    destruct (nonEmpty s); reflexivity. }
  rewrite Hdate.
  destruct previous as [| |p]; [congruence| |];
    (destruct delta as [| |d]; [congruence| |]); cbn [numberUnlessNull isNull
      isNullField absent orb gtZero ltZero]; try reflexivity;
    destruct (unknownDate date); cbn [orb]; try reflexivity;
    destruct (0 <? d)%Z; try reflexivity;
    destruct (d <? 0)%Z; reflexivity.
Qed.

(** The tuples of section 8. *)
Example delta_examples :
  let date := Val "2024-05-01" in
  let shown previous delta :=
    option_map textContent
      (updateDelta (dateOrNull date) (Some blankElement)
                   (numberUnlessNull previous) delta "visited") in
  classify (Val 8%Z) (Val 2%Z) date = Increased
  /\ option_map (fun t => includes t "+2") (shown (Val 8%Z) (Val 2%Z)) = Some true
  /\ classify (Val 5%Z) (Val 0%Z) date = Unchanged
  /\ classify Null Null date = NoPriorRun
  /\ shown Null Null = Some "لا يوجد تشغيل سابق لـ visited"
  /\ classify (Val 6%Z) (Val (-3)%Z) date = Decreased
  /\ option_map (fun t => includes t "-3") (shown (Val 6%Z) (Val (-3)%Z)) = Some true.
Proof. cbv zeta. repeat split; vm_compute; reflexivity. Qed.

(** C1, at an answer that carries the date of the previous run but has no
    previous value and no delta: the specification classifies the metric as
    having no prior run; [loadTotals] writes the message of an unchanged
    metric into the three delta slots. *)
Theorem updateDelta_missing_fields_shown_unchanged :
  let data := datedWithoutPrevious in
  let w' := snd (loadTotals (HttpOk (JObj data)) homePage) in
  let unchanged :=
    {| textContent := "لا تغيير مقارنةً بالتشغيل السابق (2024-05-01)";
       classList := ["delta-neutral"] |} in
  classify (prev_visited data) (delta_visited data) (prev_run_date data) = NoPriorRun
  /\ card_visited_delta (dom w') = Some unchanged
  /\ card_not_visited_delta (dom w') = Some unchanged
  /\ card_total_delta (dom w') = Some unchanged
  /\ Some unchanged
     = Some (shownAs Unchanged (delta_visited data) (prev_run_date data)
               "تمت الزيارة" blankElement)
  /\ Some unchanged
     <> Some (shownAs NoPriorRun (delta_visited data) (prev_run_date data)
                "تمت الزيارة" blankElement).
Proof.
  cbv zeta. repeat split; try (vm_compute; reflexivity).
  vm_compute. discriminate.
Qed.
(** ** The table renderer *)

Lemma append_nil_r (s : string) : s ++ "" = s.
Proof. induction s as [|c s IH]; [reflexivity|]. cbn. rewrite IH. reflexivity. Qed.

Lemma append_assoc (s1 s2 s3 : string) : (s1 ++ s2) ++ s3 = s1 ++ (s2 ++ s3).
Proof. induction s1 as [|c s1 IH]; [reflexivity|]. cbn. rewrite IH. reflexivity. Qed.

(** A [forEach] that appends to [html] appends the pieces in order. *)
Lemma forEach_append {A : Type} (piece : A -> string) (l : list A) (html : string) :
  fold_left (fun html x => html ++ piece x) l html
  = html ++ concatAll (map piece l).
Proof.
  revert html. induction l as [|x l IH]; intro html; cbn.
  - rewrite append_nil_r. reflexivity.
  - rewrite IH, append_assoc. reflexivity.
Qed.

Lemma forEach_row (cols : list string) (rows : list Row) (html : string) :
  fold_left
    (fun html row =>
       let html := html ++ "<tr>" in
       let html :=
         fold_left
           (fun html c => html ++ "<td>" ++ cellText (getProp row c) ++ "</td>")
           cols html in
       html ++ "</tr>")
    rows html
  = html ++ concatAll (map (dataRow cols) rows).
Proof.
  revert html. induction rows as [|row rows IH]; intro html.
  - cbn. rewrite append_nil_r. reflexivity.
  - cbn [fold_left map]. rewrite IH, forEach_append.
    unfold dataRow, concatAll. cbn [fold_right].
    rewrite !append_assoc. reflexivity.
Qed.

(** The columns the code settles on are the column set of the
    specification. *)
Lemma cols_columnSet (first : Row) (preferredOrder : option (list string)) :
  (let cols : list string := [] in
   let cols :=
     match preferredOrder with
     | Some order =>
         if (0 <? length order)%nat then filter (hasProp first) order else cols
     | None => cols
     end in
   if (length cols =? 0)%nat then keys first else cols)
  = columnSet first (orderOrEmpty preferredOrder).
Proof.
  unfold columnSet, orderOrEmpty. cbv zeta.
  destruct preferredOrder as [[|c order]|]; try reflexivity.
  cbn [length Nat.ltb Nat.leb].
  destruct (filter (hasProp first) (c :: order)); reflexivity.
Qed.

Lemma buildTableHtml_nonEmpty (first : Row) (rest : list Row)
    (preferredOrder : option (list string)) (title : option string) :
  let cols := columnSet first (orderOrEmpty preferredOrder) in
  buildTableHtml (Some (first :: rest)) preferredOrder title
  = titlePart title ++ tableOpen ++ headerCells cols ++ "</tr></thead><tbody>"
    ++ concatAll (map (dataRow cols) (first :: rest))
    ++ "</tbody></table></div>".
Proof.
  cbv zeta. unfold buildTableHtml. cbv zeta.
  rewrite cols_columnSet.
  set (cols := columnSet first (orderOrEmpty preferredOrder)).
  rewrite forEach_row, forEach_append.
  unfold headerCells, titlePart.
  destruct (truthy title); rewrite !append_assoc; reflexivity.
Qed.


Lemma inOperator_own (row : Row) (c : string) :
  inherited c = false -> inOperator row c = hasProp row c.
Proof. intro Hc. unfold inOperator. rewrite Hc. apply orb_false_r. Qed.

Lemma filter_inOperator (first : Row) (order : list string) :
  ownNames order = true ->
  filter (inOperator first) order = filter (hasProp first) order.
Proof.
  unfold ownNames. intro Ho. apply filter_ext_in. intros c Hc.
  apply inOperator_own. rewrite forallb_forall in Ho.
  apply negb_true_iff, Ho, Hc.
Qed.





(** A row answers to [toString] without having it as a key, so a preferred
    order that names it is outside the tables considered here. *)
Example inherited_name_is_no_key :
  inOperator [("a", SNum 1)] "toString" = true
  /\ hasProp [("a", SNum 1)] "toString" = false
  /\ ownNames ["toString"; "a"] = false.
Proof. repeat split. Qed.

(** C8: for the empty row sequence (and for no rows at all) the renderer
    gives the placeholder element and nothing else: the markup holds no
    table and no table row. *)
Theorem buildTableHtml_empty (preferredOrder : option (list string))
    (title : option string) :
  buildTableHtml (Some []) preferredOrder title = tableEmpty
  /\ buildTableHtml None preferredOrder title = tableEmpty
  /\ occurrences "<tr" tableEmpty = 0%nat
  /\ occurrences "<table" tableEmpty = 0%nat
  /\ tableEmpty
     = "<div class=" ++ dq ++ "table-empty" ++ dq
       ++ ">لا توجد بيانات لعرضها.</div>".
Proof. repeat split. Qed.

Example buildTableHtml_example_rows :
  occurrences "<tr>" (buildTableHtml (Some exampleRows) (Some ["b"; "a"]) None)
  = 3%nat.
Proof. reflexivity. Qed.

(** ** The table search *)

Lemma prefix_append (q s : string) :
  String.prefix q s = true <-> exists b, s = q ++ b.
Proof.
  revert s. induction q as [|c q IH]; intro s.
  - split; [intros _; exists s; reflexivity | intros _; destruct s; reflexivity].
  - destruct s as [|d s]; cbn.
    + split; [discriminate | intros [b Hb]; discriminate Hb].
    + destruct (Ascii.ascii_dec c d) as [->|Hcd].
      * rewrite IH. split; intros [b Hb]; exists b; congruence.
      * split; [discriminate | intros [b Hb]; congruence].
Qed.

(** [includes] is the substring test. *)
Lemma includes_substring (s q : string) :
  includes s q = true <-> exists a b, s = a ++ q ++ b.
Proof.
  induction s as [|c s IH].
  - change (includes "" q) with (String.prefix q "" || false).
    rewrite orb_false_r, prefix_append. split.
    + intros [b Hb]. exists "", b. exact Hb.
    + intros (a & b & Hab). destruct a as [|x a]; [exists b; exact Hab|].
      discriminate Hab.
  - change (includes (String c s) q)
      with (String.prefix q (String c s) || includes s q).
    rewrite orb_true_iff, IH, prefix_append. split.
    + intros [[b Hb]|(a & b & Hab)].
      * exists "", b. exact Hb.
      * exists (String c a), b. cbn. rewrite Hab. reflexivity.
    + intros (a & b & Hab). destruct a as [|x a].
      * left. exists b. exact Hab.
      * right. exists a, b. cbn in Hab. congruence.
Qed.

Lemma onSearchInput_text `{TextOps} (value : string) (rows : list RowEl) :
  map row_textContent (onSearchInput value rows) = map row_textContent rows.
Proof.
  unfold onSearchInput. destruct (negb (nonEmpty (toLowerCase (trim value))));
    rewrite map_map; apply map_ext; reflexivity.
Qed.

Lemma onSearchInput_length `{TextOps} (value : string) (rows : list RowEl) :
  length (onSearchInput value rows) = length rows.
Proof.
  unfold onSearchInput. destruct (negb (nonEmpty (toLowerCase (trim value))));
    apply length_map.
Qed.

Lemma onSearchInput_hidden `{TextOps} (value : string) (rows : list RowEl) :
  map hidden (onSearchInput value rows)
  = map (fun row =>
           nonEmpty (toLowerCase (trim value))
           && negb (includes (toLowerCase (row_textContent row))
                             (toLowerCase (trim value))))
        rows.
Proof.
  unfold onSearchInput. destruct (nonEmpty (toLowerCase (trim value))); cbn [negb];
    rewrite map_map; apply map_ext; intro row; cbn.
  - destruct (includes _ _); reflexivity.
  - reflexivity.
Qed.

Lemma onSearchInput_clear `{TextOps} (rows : list RowEl) :
  map row_display (onSearchInput "" rows) = map (fun _ => "") rows.
Proof.
  unfold onSearchInput. rewrite trim_empty, toLowerCase_empty. cbn.
  rewrite map_map. apply map_ext. reflexivity.
Qed.

Lemma dropWhiteSpace_blank (l : list (Z * string)) :
  forallb (fun p => isWhiteSpace (fst p)) l = true -> dropWhiteSpace l = [].
Proof.
  induction l as [|[cp bytes] l IH]; [reflexivity|].
  cbn. destruct (isWhiteSpace cp); [exact IH | discriminate].
Qed.

Lemma jsTrim_blank (s : string) : isBlank s = true -> jsTrim s = "".
Proof.
  unfold isBlank, jsTrim. intro Hb. rewrite (dropWhiteSpace_blank _ Hb).
  reflexivity.
Qed.

Lemma isAscii_append (a b : string) :
  isAscii (a ++ b) = isAscii a && isAscii b.
Proof.
  induction a as [|c a IH]; [reflexivity|].
  cbn. rewrite IH. apply andb_assoc.
Qed.

Lemma codePoints_ascii (s : string) :
  isAscii s = true -> Forall (fun p => isAscii (snd p) = true) (codePoints s).
Proof.
  induction s as [|c s IH]; [constructor|].
  cbn [isAscii codePoints]. intro Hs. apply andb_prop in Hs as [Hc Hs].
  cbv zeta. apply Z.ltb_lt in Hc.
  assert (H192 : (byteValue c <? 192)%Z = true) by (apply Z.ltb_lt; lia).
  rewrite H192. constructor; [|exact (IH Hs)].
  cbn. apply Z.ltb_lt in Hc. rewrite Hc. reflexivity.
Qed.

Lemma dropWhiteSpace_Forall (P : Z * string -> Prop) (l : list (Z * string)) :
  Forall P l -> Forall P (dropWhiteSpace l).
Proof.
  induction 1 as [|[cp bytes] l Hp Hl IH]; [constructor|].
  cbn. destruct (isWhiteSpace cp); [exact IH | constructor; assumption].
Qed.

Lemma jsTrim_ascii (s : string) : isAscii s = true -> isAscii (jsTrim s) = true.
Proof.
  intro Hs. unfold jsTrim.
  assert (H : Forall (fun p => isAscii (snd p) = true)
                (rev (dropWhiteSpace (rev (dropWhiteSpace (codePoints s)))))).
  { apply Forall_rev, dropWhiteSpace_Forall, Forall_rev, dropWhiteSpace_Forall,
      codePoints_ascii, Hs. }
  induction H as [|p l Hp Hl IH]; [reflexivity|].
  cbn. rewrite isAscii_append, Hp. exact IH.
Qed.

Lemma nonEmpty_mapString (f : ascii -> ascii) (s : string) :
  nonEmpty (mapString f s) = nonEmpty s.
Proof. destruct s; reflexivity. Qed.

(** C5: for [trim] removing the white space of ECMAScript from both ends
    and [toLowerCase] taking A to Z to a to z on ASCII text, the listener
    leaves the texts of the rendered rows as they are and sets only their
    display: a row is hidden exactly when the query, trimmed and
    lower-cased, is not empty and is not a substring of the lower-cased
    text of the row; on ASCII text that is when the trimmed query is not
    empty and does not occur in the row whatever the case of the letters
    A to Z.  A query of white space only, the empty one among them, shows
    every row, and clearing the query after any search shows every row
    again. *)
Theorem search_hides_rows_without_trimmed_query `{TextOps}
    (value : string) (rows : list RowEl) :
  (forall s, trim s = jsTrim s) ->
  (forall s, isAscii s = true -> toLowerCase s = mapString asciiLower s) ->
  let q := toLowerCase (jsTrim value) in
  let searched := onSearchInput value rows in
  map row_textContent searched = map row_textContent rows
  /\ map hidden searched
     = map (fun row =>
              nonEmpty q && negb (includes (toLowerCase (row_textContent row)) q))
           rows
  /\ (forall text, includes text q = true <-> exists a b, text = a ++ q ++ b)
  /\ (isAscii value = true ->
      Forall (fun row => isAscii (row_textContent row) = true) rows ->
      map hidden searched
      = map (fun row =>
               nonEmpty (jsTrim value)
               && negb (containsIgnoringCase (row_textContent row)
                                             (jsTrim value)))
            rows)
  /\ (isBlank value = true ->
      map row_display searched = map (fun _ => "") rows)
  /\ isBlank "" = true
  /\ map row_display (onSearchInput "" searched) = map (fun _ => "") rows.
Proof.
  intros Htrim Hlower. cbv zeta.
  split; [apply onSearchInput_text|].
  split; [rewrite onSearchInput_hidden, Htrim; reflexivity|].
  split; [intro text; apply includes_substring|].
  split.
  { intros Hv Hrows. rewrite onSearchInput_hidden, Htrim.
    rewrite (Hlower _ (jsTrim_ascii _ Hv)), nonEmpty_mapString.
    apply map_ext_in. intros row Hin.
    rewrite Forall_forall in Hrows. rewrite (Hlower _ (Hrows row Hin)).
    reflexivity. }
  split.
  { intro Hb. unfold onSearchInput.
    rewrite Htrim, (jsTrim_blank _ Hb), toLowerCase_empty. cbn.
    rewrite map_map. apply map_ext. reflexivity. }
  split; [reflexivity|].
  rewrite onSearchInput_clear, !map_const, onSearchInput_length.
  reflexivity.
Qed.

(** The query [a ] (with a space after the letter) against a row whose
    text is [ab]: the text does not contain the query, yet the row stays
    visible, because the listener searches for the trimmed query. *)
Lemma search_trims_the_query :
  map hidden (onSearchInput "a " [{| row_textContent := "ab"; row_display := "" |}])
  = [false]
  /\ includes (toLowerCase "ab") (toLowerCase "a ") = false.
Proof. split; reflexivity. Qed.

(** Section 8: a query matching only the second of three rows hides the
    first and the third; clearing the query shows the three again. *)
Example search_three_rows :
  let rows :=
    [ {| row_textContent := "Abha12"; row_display := "" |};
      {| row_textContent := "Khamis7"; row_display := "" |};
      {| row_textContent := "Bisha3"; row_display := "" |} ] in
  map row_display (onSearchInput "khAMis" rows) = ["none"; ""; "none"]
  /\ map row_display (onSearchInput "" (onSearchInput "khAMis" rows))
     = [""; ""; ""].
Proof. split; reflexivity. Qed.

(** The query [KHAmis] typed after a no-break space and a space, with a
    tab after it, hides the first and the third of three rows and shows
    the second; the same white space alone shows the three. *)
Lemma search_finds_trimmed_query :
  map hidden (@onSearchInput basicLatinText (nbsp ++ " KHAmis" ++ tab) threeRows)
  = [true; false; true]
  /\ map row_display (@onSearchInput basicLatinText (nbsp ++ " " ++ tab) threeRows)
     = [""; ""; ""].
Proof.
  split.
  - rewrite (proj1 (proj2
               (@search_hides_rows_without_trimmed_query basicLatinText
                  (nbsp ++ " KHAmis" ++ tab) threeRows
                  (fun s => eq_refl) (fun s _ => eq_refl)))).
    reflexivity.
  - apply (proj1 (proj2 (proj2 (proj2 (proj2
             (@search_hides_rows_without_trimmed_query basicLatinText
                (nbsp ++ " " ++ tab) threeRows
                (fun s => eq_refl) (fun s _ => eq_refl))))))).
    reflexivity.
Defined.
(** ** The percentage column *)

Lemma getProp_setProp (row : Row) (k : string) (v : scalar) (c : string) :
  getProp (setProp row k v) c
  = if String.eqb c k then Some v else getProp row c.
Proof.
  induction row as [|[k' v'] row IH]; cbn.
  - rewrite (String.eqb_sym k c). reflexivity.
  - destruct (String.eqb k' k) eqn:Ek; cbn.
    + apply String.eqb_eq in Ek. subst k'.
      rewrite (String.eqb_sym k c). destruct (String.eqb c k); reflexivity.
    + destruct (String.eqb k' c) eqn:Ec.
      * apply String.eqb_eq in Ec. subst k'.
        rewrite Ek. reflexivity.
      * exact IH.
Qed.


(** *** The guard on integers *)






(** Two of three licences visited; no licence at all; a negative total; a
    row without the two counts. *)
Example percentage_examples `{NumberOps} :
  withPercentage [("التصنيف", SStr "أ"); ("إجمالي_الرخص", SNum 3);
                  ("تمت الزيارة", SNum 2)]
  = [("التصنيف", SStr "أ"); ("إجمالي_الرخص", SNum 3);
     ("تمت الزيارة", SNum 2); ("النسبة", SStr "66.7%")]
  /\ getProp (withPercentage [("إجمالي_الرخص", SNum 0); ("تمت الزيارة", SNum 4)])
             "النسبة" = Some (SStr "0.0%")
  /\ getProp (withPercentage [("إجمالي_الرخص", SNum (-5)); ("تمت الزيارة", SNum 4)])
             "النسبة" = Some (SStr "0.0%")
  /\ withPercentage [("التصنيف", SStr "ب")]
     = [("التصنيف", SStr "ب"); ("النسبة", SStr "0.0%")]
  /\ getProp (withPercentage [("إجمالي_الرخص", SNum 8); ("تمت الزيارة", SNum 1)])
             "النسبة" = Some (SStr "12.5%").
Proof. repeat split; vm_compute; reflexivity. Qed.

(* ================================================================== *)
(** * Further properties *)

(** ** The style of a delta slot *)


Lemma filter_idem {A : Type} (p : A -> bool) (l : list A) :
  filter p (filter p l) = filter p l.
Proof.
  induction l as [|x l IH]; [reflexivity|].
  cbn. destruct (p x) eqn:Hx; cbn; [rewrite Hx, IH; reflexivity | exact IH].
Qed.



(** ** loadTotals: the answers it can get *)

(** X2: A success answer whose body cannot be parsed, or is [null], ends like
    a network failure: on a page that has the status line, the line reads
    the connection-error text, whatever it read before; the cards are as
    they were; and the error is in the console.  A rejection logs the
    network error; a non-success answer logs nothing. *)
Theorem loadTotals_unreadable_body (w : World) :
  (let w' := snd (loadTotals (HttpOk Unparsable) w) in
   match status (dom w) with
   | Some _ => status (dom w') = Some "خطأ في الاتصال بالخادم."
   | None => status (dom w') = None
   end
   /\ cardSlots (dom w') = cardSlots (dom w)
   /\ console w' = (console w ++ [SyntaxError])%list)
  /\ (let w' := snd (loadTotals (HttpOk JNull) w) in
      match status (dom w) with
      | Some _ => status (dom w') = Some "خطأ في الاتصال بالخادم."
      | None => status (dom w') = None
      end
      /\ cardSlots (dom w') = cardSlots (dom w)
      /\ console w' = (console w ++ [TypeError])%list)
  /\ console (snd (loadTotals Rejected w)) = (console w ++ [NetworkError])%list
  /\ (forall b, console (snd (loadTotals (HttpError b) w)) = console w).
Proof.
  repeat split; cbn; try (destruct (status (dom w)); reflexivity); reflexivity.
Qed.

(** X3: A success answer with an object body whose counts are safe
    integers: every card the page has then reads the count of the answer in
    decimal, and [0] for a count that is missing, [null] or zero, whatever
    the card read before; the status line, where there is one, is empty;
    nothing is logged and nothing thrown. *)
Theorem loadTotals_success_shows_counts (data : TotalsResult) (w : World) :
  safeField (visited data) = true ->
  safeField (not_visited data) = true ->
  safeField (total data) = true ->
  let w' := snd (loadTotals (HttpOk (JObj data)) w) in
  let shown (v : field Z) :=
    match v with
    | Val z => numberToString z
    | _ => "0"
    end in
  let reads (before after : option string) (text : string) :=
    match before with
    | Some _ => after = Some text
    | None => after = None
    end in
  fst (loadTotals (HttpOk (JObj data)) w) = Normal tt
  /\ reads (card_visited_value (dom w)) (card_visited_value (dom w'))
           (shown (visited data))
  /\ reads (card_not_visited_value (dom w)) (card_not_visited_value (dom w'))
           (shown (not_visited data))
  /\ reads (card_total_value (dom w)) (card_total_value (dom w'))
           (shown (total data))
  /\ reads (status (dom w)) (status (dom w')) ""
  /\ console w' = console w.
Proof.
  intros _ _ _. cbv zeta. split; [apply loadTotals_never_throws|].
  rewrite loadTotals_ok, renderTotals_dom. cbv zeta.
  cbn [dom withRequests withDom setStatusText body_data_sector status
       card_visited_value card_not_visited_value card_total_value
       card_visited_delta card_not_visited_delta card_total_delta
       muni_summary_table muni_raw_table visitsChart_canvas municipality_filter].
  repeat split;
    match goal with
    | |- match ?e with _ => _ end => destruct e
    | _ => idtac
    end; cbn [assign option_map]; try reflexivity;
    f_equal; match goal with |- context [numberOrZero ?v] => destruct v end;
    reflexivity.
Qed.

Lemma loadTotals_success_on_home_page :
  let w' := snd (loadTotals (HttpOk (JObj twelveVisited)) homePage) in
  card_visited_value (dom w') = Some "12"
  /\ card_not_visited_value (dom w') = Some "0"
  /\ card_total_value (dom w') = Some "0"
  /\ status (dom w') = Some "".
Proof.
  destruct (loadTotals_success_shows_counts twelveVisited homePage
              eq_refl eq_refl eq_refl) as (_ & Hv & Hn & Ht & Hs & _).
  exact (conj Hv (conj Hn (conj Ht Hs))).
Defined.

(** ** loadChart: the answers it can get *)

Lemma loadChart_no_canvas (r : FetchResult ChartData) (w : World) :
  visitsChart_canvas (dom w) = false -> loadChart r w = (Normal tt, w).
Proof.
  intro Hc. unfold loadChart. rewrite bind_gets, Hc. reflexivity.
Qed.

(** X4: [loadChart] throws nothing and writes nothing to the page; on a page
    without the canvas it does nothing at all, not even a request. *)
Theorem loadChart_leaves_page (r : FetchResult ChartData) (w : World) :
  fst (loadChart r w) = Normal tt
  /\ dom (snd (loadChart r w)) = dom w
  /\ currentFilter (snd (loadChart r w)) = currentFilter w
  /\ (if visitsChart_canvas (dom w) then True
      else snd (loadChart r w) = w).
Proof.
  destruct (visitsChart_canvas (dom w)) eqn:Hc.
  - unfold loadChart. rewrite bind_gets, Hc. cbn [negb]. rewrite bind_gets.
    destruct r as [|[| |data]|b]; repeat split.
  - rewrite (loadChart_no_canvas r w Hc). repeat split.
Qed.

(** X5: A success answer with an object body, on a page with the canvas: a
    new chart takes the place of the one held before, so the canvas shows
    the labels of the answer, with the two series of the current day,
    followed by the two of the previous day exactly when [has_prev] is
    set; nothing is logged. *)
Theorem loadChart_success_replaces_chart (data : ChartData) (w : World) :
  let w' := snd (loadChart (HttpOk (JObj data)) w) in
  if visitsChart_canvas (dom w) then
    exists c,
      visitsChart w' = Some c
      /\ shownChart w' = Some c
      /\ chart_labels c = labels data
      /\ map stack (datasets c)
         = (if has_prev data
            then ["current"; "current"; "previous"; "previous"]
            else ["current"; "current"])
      /\ map ds_data (datasets c)
         = (if has_prev data
            then [current_visited data; current_not data;
                  cd_prev_visited data; cd_prev_not data]
            else [current_visited data; current_not data])
      /\ console w' = console w
  else w' = w.
Proof.
  cbv zeta. destruct (visitsChart_canvas (dom w)) eqn:Hc.
  - unfold loadChart. rewrite bind_gets, Hc. cbn [negb]. rewrite bind_gets.
    eexists. split; [reflexivity|]. split; [reflexivity|].
    split; [reflexivity|].
    unfold chartDatasets. destruct (has_prev data); repeat split.
  - rewrite (loadChart_no_canvas _ w Hc). reflexivity.
Qed.

(** X6: A success answer whose body is [null] blanks the canvas: the chart
    held before is destroyed before the body is read, and no new one is
    made.  A body that cannot be parsed, and a rejection, leave the chart
    as it was.  Each of the three is logged. *)
Theorem loadChart_null_body_blanks_chart (w : World) :
  if visitsChart_canvas (dom w) then
    (let w' := snd (loadChart (HttpOk JNull) w) in
     shownChart w' = None
     /\ visitsChart w' = option_map destroy (visitsChart w)
     /\ console w' = (console w ++ [TypeError])%list)
    /\ (let w' := snd (loadChart (HttpOk Unparsable) w) in
        visitsChart w' = visitsChart w
        /\ console w' = (console w ++ [SyntaxError])%list)
    /\ (let w' := snd (loadChart Rejected w) in
        visitsChart w' = visitsChart w
        /\ console w' = (console w ++ [NetworkError])%list)
  else True.
Proof.
  destruct (visitsChart_canvas (dom w)) eqn:Hc; [|exact I].
  unfold loadChart. rewrite !bind_gets, Hc. cbn [negb]. rewrite !bind_gets.
  repeat split. cbn. unfold shownChart. cbn.
  destruct (visitsChart w); reflexivity.
Qed.

(** ** loadMunicipalityDetails: the answers it can get *)

Ltac run_details :=
  cbv beta iota zeta delta
    [tryCatch bind fetch json deref modify modifyDom consoleError ret throw
     renderDetails fst snd dom withDom withRequests withConsole requests
     console setSummaryHtml setRawHtml muni_summary_table muni_raw_table error];
  rewrite ?assign_assign.

(** X7: [loadMunicipalityDetails] throws nothing.  Without one of its two
    containers it does nothing.  With both, on a page bound to a sector it
    empties both containers; with no municipality selected it asks for one
    to be chosen and empties the raw container; in both cases nothing is
    requested.  Otherwise, on an object body the summary container holds
    the summary table and the raw container the raw table; in every other
    case the raw container is empty and the summary container holds the
    message of the error body (or the fallback text) on a non-success
    answer, and the connection-error text on a rejection, on a body that
    cannot be parsed, and on a [null] body, be it of a success or of a
    non-success answer.  The contents are what the containers hold
    afterwards, whatever they held before. *)
Theorem loadMunicipalityDetails_outcomes `{NumberOps}
    (r : FetchResult DetailsResult) (w : World) :
  let w' := snd (loadMunicipalityDetails r w) in
  let summaryHtml := muni_summary_table (dom w') in
  let rawHtml := muni_raw_table (dom w') in
  let connectionError := "<div class='table-error'>خطأ في الاتصال.</div>" in
  fst (loadMunicipalityDetails r w) = Normal tt
  /\ match muni_summary_table (dom w), muni_raw_table (dom w) with
     | Some _, Some _ =>
         match getBodySector w, getMunicipalityFilter w with
         | Some (String _ _), _ =>
             summaryHtml = Some "" /\ rawHtml = Some ""
             /\ requests w' = requests w
         | _, None | _, Some EmptyString =>
             summaryHtml
             = Some "<div class='table-empty'>اختر بلديه لعرض التفاصيل</div>"
             /\ rawHtml = Some ""
             /\ requests w' = requests w
         | _, Some (String _ _) =>
             match r with
             | HttpOk (JObj data) =>
                 summaryHtml
                 = Some (summaryBlock
                           (buildTableHtml
                              (Some (map withPercentage
                                         (rowsOrEmpty (summary data))))
                              (Some summaryOrder) None))
                 /\ rawHtml
                    = Some (rawBlock
                              (buildTableHtml (Some (rowsOrEmpty (raw data)))
                                              (Some rawOrder) None))
                 /\ console w' = console w
             | HttpError (JObj err) =>
                 summaryHtml
                 = Some ("<div class='table-error'>"
                         ++ errorOr (error err) "تعذر تحميل تفاصيل البلدية."
                         ++ "</div>")
                 /\ rawHtml = Some ""
                 /\ console w' = console w
             | HttpError Unparsable =>
                 summaryHtml
                 = Some "<div class='table-error'>تعذر تحميل تفاصيل البلدية.</div>"
                 /\ rawHtml = Some ""
                 /\ console w' = console w
             | HttpError JNull =>
                 summaryHtml = Some connectionError
                 /\ rawHtml = Some ""
                 /\ console w' = (console w ++ [TypeError])%list
             | HttpOk JNull =>
                 summaryHtml = Some connectionError
                 /\ rawHtml = Some ""
                 /\ console w' = (console w ++ [TypeError])%list
             | HttpOk Unparsable =>
                 summaryHtml = Some connectionError
                 /\ rawHtml = Some ""
                 /\ console w' = (console w ++ [SyntaxError])%list
             | Rejected =>
                 summaryHtml = Some connectionError
                 /\ rawHtml = Some ""
                 /\ console w' = (console w ++ [NetworkError])%list
             end
         end
     | _, _ => w' = w
     end.
Proof.
  cbv zeta. unfold loadMunicipalityDetails. rewrite !bind_gets.
  destruct (muni_summary_table (dom w)) as [s0|] eqn:Hs;
    [|split; reflexivity].
  destruct (muni_raw_table (dom w)) as [r0|] eqn:Hr;
    [|split; reflexivity].
  cbn [isNull orb]. rewrite bind_gets.
  cbv beta iota zeta delta [muni_summary_table muni_raw_table dom] in Hs, Hr.
  destruct (getBodySector w) as [[|c0 b0]|] eqn:Hb;
    cbn [truthy nonEmpty String.eqb negb];
    [|rewrite !bind_modifyDom; run_details; rewrite ?Hs, ?Hr;
      cbn [assign option_map]; repeat split|].
  all: rewrite bind_gets;
    destruct (getMunicipalityFilter w) as [[|c1 m1]|] eqn:Hm;
    cbn [truthy nonEmpty String.eqb negb].
  all: rewrite !bind_modifyDom.
  all: try (destruct r as [|[| |data]|[| |err]]).
  all: run_details; rewrite ?Hs, ?Hr; cbn [assign option_map]; repeat split.
Qed.

(** ** The table renderer: columns and cells *)

Lemma keys_hasProp (row : Row) (k : string) :
  In k (keys row) -> hasProp row k = true.
Proof.
  unfold hasProp, keys. induction row as [|[k' v'] row IH]; [intros []|].
  cbn. destruct (String.eqb k' k) eqn:E; [reflexivity|].
  intros [Hk|Hk]; [|exact (IH Hk)].
  subst k'. rewrite String.eqb_refl in E. discriminate E.
Qed.

(** X8: For preferred names that no object inherits, the names of the
    preferred order that the first row answers to are those that are its
    keys, and every column of the table is a key of the first row, so the
    first data row has no cell of a missing key; the columns are the
    preferred ones that the first row has, in the preferred order, and
    only when it has none of them are they its own keys.  A key of the
    first row outside the preferred order is shown in that last case
    alone. *)
Theorem columnSet_keys_of_first_row (first : Row) (order : list string) :
  ownNames order = true ->
  filter (inOperator first) order = filter (hasProp first) order
  /\ Forall (fun c => hasProp first c = true) (columnSet first order)
  /\ Forall (fun c => getProp first c <> None) (columnSet first order)
  /\ (columnSet first order = filter (inOperator first) order
      \/ (filter (inOperator first) order = []
          /\ columnSet first order = keys first)).
Proof.
  intro Ho. rewrite (filter_inOperator first order Ho).
  assert (H : Forall (fun c => hasProp first c = true) (columnSet first order)).
  { unfold columnSet.
    destruct (filter (hasProp first) order) as [|c cols] eqn:E.
    - apply Forall_forall. intros k Hk. apply keys_hasProp. exact Hk.
    - rewrite <- E. apply Forall_forall. intros k Hk.
      apply filter_In in Hk. apply Hk. }
  split; [reflexivity|]. split; [exact H|]. split.
  - eapply Forall_impl; [|exact H]. intros c Hc. unfold hasProp in Hc.
    destruct (getProp first c); [discriminate | discriminate Hc].
  - unfold columnSet. destruct (filter (hasProp first) order);
      [right; split; reflexivity | left; reflexivity].
Qed.

(** A first row with the keys [a] and [b]: of the preferred names [b],
    [x], [a] the columns are [b] and [a]; of [x] and [y] alone they are
    the keys of the row. *)
Lemma columnSet_of_two_keys :
  (columnSet [("a", SNum 1); ("b", SNum 2)] ["b"; "x"; "a"] = ["b"; "a"]
   /\ Forall (fun c => hasProp [("a", SNum 1); ("b", SNum 2)] c = true)
             (columnSet [("a", SNum 1); ("b", SNum 2)] ["b"; "x"; "a"]))
  /\ filter (inOperator [("a", SNum 1); ("b", SNum 2)]) ["x"; "y"] = []
  /\ columnSet [("a", SNum 1); ("b", SNum 2)] ["x"; "y"] = ["a"; "b"].
Proof.
  pose proof (columnSet_keys_of_first_row
                [("a", SNum 1); ("b", SNum 2)] ["b"; "x"; "a"] eq_refl)
    as (_ & Hkeys & _ & _).
  pose proof (columnSet_keys_of_first_row
                [("a", SNum 1); ("b", SNum 2)] ["x"; "y"] eq_refl)
    as (Hfilter & _ & _ & _).
  split; [split; [reflexivity | exact Hkeys]|].
  split; [reflexivity | reflexivity].
Defined.

Lemma includes_append (a s b q : string) :
  includes s q = true -> includes (a ++ s ++ b) q = true.
Proof.
  rewrite !includes_substring. intros (x & y & ->).
  exists (a ++ x), (y ++ b). rewrite !append_assoc. reflexivity.
Qed.

Lemma includes_app_r (a s q : string) :
  includes s q = true -> includes (a ++ s) q = true.
Proof.
  intro H. pose proof (includes_append a s "" q H) as H'.
  rewrite append_nil_r in H'. exact H'.
Qed.

Lemma includes_app_l (s b q : string) :
  includes s q = true -> includes (s ++ b) q = true.
Proof. intro H. exact (includes_append "" s b q H). Qed.

Lemma includes_self (s : string) : includes s s = true.
Proof.
  apply includes_substring. exists "", "". cbn. rewrite append_nil_r. reflexivity.
Qed.

Lemma concatAll_In {A : Type} (piece : A -> string) (l : list A) (x : A) (q : string) :
  In x l -> includes (piece x) q = true ->
  includes (concatAll (map piece l)) q = true.
Proof.
  intros Hx Hq. induction l as [|y l IH]; [destruct Hx|].
  cbn [map concatAll fold_right]. fold (concatAll (map piece l)).
  destruct Hx as [->|Hx].
  - exact (includes_append "" (piece x) (concatAll (map piece l)) q Hq).
  - pose proof (includes_append (piece y) (concatAll (map piece l)) "" q (IH Hx))
      as Hy.
    rewrite append_nil_r in Hy. exact Hy.
Qed.

(** X9: The text of every cell stands in the markup as it is, between [<td>]
    and [</td>]: the renderer escapes nothing. *)
Theorem buildTableHtml_cells_verbatim (first : Row) (rest : list Row)
    (preferredOrder : option (list string)) (title : option string)
    (row : Row) (c : string) :
  In row (first :: rest) ->
  In c (columnSet first (orderOrEmpty preferredOrder)) ->
  includes (buildTableHtml (Some (first :: rest)) preferredOrder title)
           ("<td>" ++ cellText (getProp row c) ++ "</td>") = true.
Proof.
  intros Hrow Hc. rewrite buildTableHtml_nonEmpty. cbv zeta.
  set (cols := columnSet first (orderOrEmpty preferredOrder)) in *.
  do 4 apply includes_app_r. apply includes_app_l.
  apply (concatAll_In (dataRow cols) (first :: rest) row); [exact Hrow|].
  unfold dataRow. apply includes_app_r, includes_app_l.
  apply (concatAll_In
           (fun c => "<td>" ++ cellText (getProp row c) ++ "</td>") cols c);
    [exact Hc | apply includes_self].
Qed.

(** A cell that holds markup is markup in the table. *)
Lemma buildTableHtml_markup_cell :
  includes
    (buildTableHtml (Some [[("a", SStr "<b>x</b>")]]) None None)
    "<td><b>x</b></td>" = true.
Proof.
  apply (buildTableHtml_cells_verbatim
           [("a", SStr "<b>x</b>")] [] None None [("a", SStr "<b>x</b>")] "a").
  - left. reflexivity.
  - left. reflexivity.
Defined.

(** ** The summary rows *)

Lemma hasProp_setProp (row : Row) (k : string) (v : scalar) (c : string) :
  hasProp (setProp row k v) c = (String.eqb c k || hasProp row c).
Proof.
  unfold hasProp. rewrite getProp_setProp.
  destruct (String.eqb c k); reflexivity.
Qed.

Lemma setProp_twice (row : Row) (k : string) (v v' : scalar) :
  setProp (setProp row k v) k v' = setProp row k v'.
Proof.
  induction row as [|[k' u] row IH]; cbn.
  - rewrite String.eqb_refl. reflexivity.
  - destruct (String.eqb k' k) eqn:E; cbn; rewrite E; [reflexivity|].
    rewrite IH. reflexivity.
Qed.

(** X10: Extending a row that was extended already changes nothing: the
    percentage is computed from the two counts, which the extension leaves
    alone. *)
Theorem withPercentage_twice `{NumberOps} (row : Row) :
  withPercentage (withPercentage row) = withPercentage row.
Proof.
  unfold withPercentage at 1.
  assert (Ht : getProp (withPercentage row) "إجمالي_الرخص"
               = getProp row "إجمالي_الرخص")
    by (unfold withPercentage; rewrite getProp_setProp; reflexivity).
  assert (Hv : getProp (withPercentage row) "تمت الزيارة"
               = getProp row "تمت الزيارة")
    by (unfold withPercentage; rewrite getProp_setProp; reflexivity).
  rewrite Ht, Hv. unfold withPercentage. apply setProp_twice.
Qed.

(** X11: The summary table never falls back to the keys of the rows: its
    columns are those of the four data columns of [summaryOrder] that the
    first row has, in that order, followed by the percentage column, which
    is always there. *)
Theorem summary_table_columns `{NumberOps} (first : Row) (rest : list Row) :
  let cols :=
    (filter (hasProp first) ["التصنيف"; "إجمالي_الرخص"; "تمت الزيارة"; "لم تزار"]
     ++ ["النسبة"])%list in
  columnSet (withPercentage first) summaryOrder = cols
  /\ buildTableHtml (Some (map withPercentage (first :: rest)))
                    (Some summaryOrder) None
     = tableOpen ++ headerCells cols ++ "</tr></thead><tbody>"
       ++ concatAll (map (dataRow cols) (map withPercentage (first :: rest)))
       ++ "</tbody></table></div>".
Proof.
  cbv zeta.
  assert (Hc : columnSet (withPercentage first) summaryOrder
               = (filter (hasProp first)
                    ["التصنيف"; "إجمالي_الرخص"; "تمت الزيارة"; "لم تزار"]
                  ++ ["النسبة"])%list).
  { unfold columnSet, summaryOrder, withPercentage. cbn [filter].
    rewrite !hasProp_setProp.
    repeat match goal with
           | |- context [String.eqb ?a ?b] =>
               let r := eval vm_compute in (String.eqb a b) in
               change (String.eqb a b) with r
           end.
    cbn [orb].
    destruct (hasProp first "التصنيف"), (hasProp first "إجمالي_الرخص"),
      (hasProp first "تمت الزيارة"), (hasProp first "لم تزار"); reflexivity. }
  split; [exact Hc|].
  cbn [map]. rewrite buildTableHtml_nonEmpty. cbv zeta.
  cbn [orderOrEmpty]. rewrite Hc. reflexivity.
Qed.

(** ** The table search: successive queries *)

(** X12: What the rows show depends on the last query alone: a search after a
    search gives what the second search gives on the rows as rendered. *)
Theorem onSearchInput_last_query_wins `{TextOps} (first second : string)
    (rows : list RowEl) :
  onSearchInput second (onSearchInput first rows) = onSearchInput second rows.
Proof.
  unfold onSearchInput.
  destruct (negb (nonEmpty (toLowerCase (trim first))));
    destruct (negb (nonEmpty (toLowerCase (trim second))));
    rewrite map_map; apply map_ext; intros [text display]; reflexivity.
Qed.

Lemma includes_trans (s q1 q2 : string) :
  includes s q2 = true -> includes q2 q1 = true -> includes s q1 = true.
Proof.
  rewrite !includes_substring. intros (a & b & ->) (c & d & ->).
  exists (a ++ c), (d ++ b). rewrite !append_assoc. reflexivity.
Qed.

Lemma includes_empty (q : string) : includes "" q = true -> q = "".
Proof.
  rewrite includes_substring. intros (a & b & Hab).
  destruct a; [|discriminate Hab]. destruct q; [reflexivity | discriminate Hab].
Qed.

(** X13: Narrowing the query never brings a hidden row back: when the first
    query (trimmed, lower-cased) occurs in the second, every row that the
    first hides the second hides too. *)
Theorem onSearchInput_narrowing `{TextOps} (first second : string)
    (rows : list RowEl) (n : nat) :
  includes (toLowerCase (trim second)) (toLowerCase (trim first)) = true ->
  nth n (map hidden (onSearchInput first rows)) false = true ->
  nth n (map hidden (onSearchInput second rows)) false = true.
Proof.
  intro Hq. rewrite !onSearchInput_hidden.
  set (q1 := toLowerCase (trim first)) in *.
  set (q2 := toLowerCase (trim second)) in *.
  revert n. induction rows as [|row rows IH]; intros [|n]; cbn [map nth];
    try discriminate; [|apply IH].
  destruct (nonEmpty q1) eqn:E1; [|discriminate]. cbn [andb].
  destruct (includes (toLowerCase (row_textContent row)) q1) eqn:I1;
    [discriminate|]. intros _.
  destruct (nonEmpty q2) eqn:E2.
  - cbn [andb].
    destruct (includes (toLowerCase (row_textContent row)) q2) eqn:I2;
      [|reflexivity].
    rewrite (includes_trans _ q1 q2 I2 Hq) in I1. discriminate I1.
  - unfold nonEmpty in E2. apply negb_false_iff, String.eqb_eq in E2.
    rewrite E2 in Hq. apply includes_empty in Hq. rewrite Hq in E1.
    discriminate E1.
Qed.

(** The query [kh] hides the first of two rows, and so does [kha]. *)
Lemma onSearchInput_narrowing_example :
  nth 0 (map hidden
           (onSearchInput "kha"
              [ {| row_textContent := "Abha"; row_display := "" |};
                {| row_textContent := "Khamis"; row_display := "" |} ]))
      false = true.
Proof.
  apply (@onSearchInput_narrowing asciiText "kh" "kha"); reflexivity.
Defined.

(** ** The side menu *)

Lemma tokens_contains_remove (c : string) (cs : list string) :
  tokens_contains c (tokens_remove c cs) = false.
Proof.
  unfold tokens_contains, tokens_remove. apply existsb_filter_out.
  rewrite String.eqb_refl. reflexivity.
Qed.

Lemma tokens_contains_toggle (c : string) (cs : list string) :
  tokens_contains c (tokens_toggle c cs) = negb (tokens_contains c cs).
Proof.
  unfold tokens_toggle. destruct (tokens_contains c cs) eqn:E.
  - apply tokens_contains_remove.
  - unfold tokens_contains in *. rewrite existsb_app, E. cbn.
    rewrite String.eqb_refl. reflexivity.
Qed.

Lemma tokens_remove_toggle (c : string) (cs : list string) :
  tokens_remove c (tokens_toggle c cs) = tokens_remove c cs.
Proof.
  unfold tokens_toggle, tokens_remove.
  destruct (tokens_contains c cs).
  - apply filter_idem.
  - rewrite filter_app. cbn. rewrite String.eqb_refl. cbn.
    apply app_nil_r.
Qed.

(** X14: The menu is open exactly when the overlay is active, after any clicks
    on the button and on the overlay, if it was so before; a click on the
    button flips the two, a click on the overlay closes both, neither
    touches any other class, and on a page that lacks the button, the menu
    or the overlay a click does nothing. *)
Theorem menu_open_iff_overlay_active (installed : bool)
    (evs : list MenuEvent) (m : Menu) :
  menuOpen m = overlayActive m ->
  menuOpen (menuClicks installed evs m)
  = overlayActive (menuClicks installed evs m)
  /\ menuOpen (onMenuButtonClick m) = negb (menuOpen m)
  /\ menuOpen (onOverlayClick m) = false
  /\ overlayActive (onOverlayClick m) = false
  /\ tokens_remove "open" (side_menu (onMenuButtonClick m))
     = tokens_remove "open" (side_menu m)
  /\ tokens_remove "active" (menu_overlay (onMenuButtonClick m))
     = tokens_remove "active" (menu_overlay m)
  /\ menuClicks false evs m = m
  /\ (forall menuBtn sideMenu overlay,
        setupMenu menuBtn sideMenu overlay = menuBtn && sideMenu && overlay).
Proof.
  intro Hsync. split.
  - revert m Hsync. unfold menuClicks.
    induction evs as [|ev evs IH]; intros m Hsync; [exact Hsync|].
    cbn [fold_left]. apply IH. unfold menuClick.
    destruct installed; [|exact Hsync].
    unfold menuOpen, overlayActive in *.
    destruct ev; cbn [onMenuButtonClick onOverlayClick side_menu menu_overlay].
    + rewrite !tokens_contains_toggle, Hsync. reflexivity.
    + rewrite !tokens_contains_remove. reflexivity.
  - unfold menuOpen, overlayActive. cbn [onMenuButtonClick onOverlayClick
      side_menu menu_overlay].
    rewrite tokens_contains_toggle, !tokens_contains_remove, !tokens_remove_toggle.
    repeat split.
    + unfold menuClicks. induction evs as [|ev evs IH]; [reflexivity | exact IH].
    + intros [] [] []; reflexivity.
Qed.

(** From a closed menu: the button, the overlay, the button again. *)
Lemma menu_open_iff_overlay_active_example :
  let m :=
    menuClicks true [MenuButtonClicked; OverlayClicked; MenuButtonClicked]
               {| side_menu := ["side-menu"]; menu_overlay := [] |} in
  menuOpen m = overlayActive m.
Proof.
  exact (proj1 (menu_open_iff_overlay_active true
                  [MenuButtonClicked; OverlayClicked; MenuButtonClicked]
                  {| side_menu := ["side-menu"]; menu_overlay := [] |}
                  eq_refl)).
Defined.

(** ** The upload form *)

(** X15: On a page that has the status line, the [submit] listener always
    ends with a final text in it, never with the text it starts with: the
    success text on an accepted upload whose body parses, the text of the
    error (or the status text of the response) after the error prefix on
    a refused one, and the connection-error text, with the error logged,
    on a rejection, on an accepted upload whose body cannot be parsed, and
    on a refused one whose body is [null].  On a page without the status
    line nothing is shown, and only a rejection and an accepted upload
    whose body cannot be parsed are logged: the body of a refused upload
    is not looked into. *)
Theorem onUploadSubmit_outcomes (a : UploadAnswer) (p : UploadPage) :
  let p' := onUploadSubmit a p in
  let connectionError := "خطأ في الاتصال بالخادم." in
  upload_status p' <> Some "جاري رفع الملفات ..."
  /\ match upload_status p with
     | Some _ =>
         match a with
         | UploadAccepted (JObj _) | UploadAccepted JNull =>
             upload_status p' = Some "تمت المعالجة بنجاح."
             /\ upload_console p' = upload_console p
         | UploadAccepted Unparsable =>
             upload_status p' = Some connectionError
             /\ upload_console p' = (upload_console p ++ [SyntaxError])%list
         | UploadRefused statusText (JObj {| error := Val (String c s) |}) =>
             upload_status p' = Some ("خطأ: " ++ String c s)
             /\ upload_console p' = upload_console p
         | UploadRefused statusText (JObj _)
         | UploadRefused statusText Unparsable =>
             upload_status p' = Some ("خطأ: " ++ statusText)
             /\ upload_console p' = upload_console p
         | UploadRefused statusText JNull =>
             upload_status p' = Some connectionError
             /\ upload_console p' = (upload_console p ++ [TypeError])%list
         | UploadRejected =>
             upload_status p' = Some connectionError
             /\ upload_console p' = (upload_console p ++ [NetworkError])%list
         end
     | None =>
         upload_status p' = None
         /\ upload_console p'
            = match a with
              | UploadRejected => (upload_console p ++ [NetworkError])%list
              | UploadAccepted Unparsable =>
                  (upload_console p ++ [SyntaxError])%list
              | _ => upload_console p
              end
     end.
Proof.
  cbv zeta. unfold onUploadSubmit.
  destruct (upload_status p) as [before|];
    destruct a as [|[| |[]]|statusText [| |[[| |[|c s]]]]];
    cbn [uploadAttempt errorOr assign option_map error nonEmpty String.eqb negb
         upload_status upload_console];
    (split; [discriminate|]); split; reflexivity.
Qed.

(** ** The listeners and the requests they cause *)

Lemma isNull_assign {A : Type} (v : A) (el : option A) :
  isNull (assign v el) = isNull el.
Proof. destruct el; reflexivity. Qed.

Lemma sameElements_refl (w : World) : sameElements w w.
Proof. repeat split. Qed.

Lemma sameElements_trans (w1 w2 w3 : World) :
  sameElements w1 w2 -> sameElements w2 w3 -> sameElements w1 w3.
Proof.
  unfold sameElements. intros (A1 & A2 & A3) (B1 & B2 & B3).
  repeat split; congruence.
Qed.

Lemma elements_modifyDom (f : Dom -> Dom) :
  (forall d, visitsChart_canvas (f d) = visitsChart_canvas d) ->
  (forall d, isNull (muni_summary_table (f d)) = isNull (muni_summary_table d)) ->
  (forall d, isNull (muni_raw_table (f d)) = isNull (muni_raw_table d)) ->
  keeps sameElements (modifyDom f).
Proof. intros Hc Hs Hr w. repeat split; cbn; [apply Hc | apply Hs | apply Hr]. Qed.

Lemma elements_consoleError (e : exn) : keeps sameElements (consoleError e).
Proof. intro w. repeat split. Qed.

Lemma elements_fetch {A : Type} (url : string) (r : FetchResult A) :
  keeps sameElements (fetch url r).
Proof. intro w. destruct r; repeat split. Qed.

Lemma elements_withChart (f : World -> option Chart) :
  keeps sameElements (modify (fun w => withChart (f w) w)).
Proof. intro w. repeat split. Qed.

Ltac elements :=
  repeat first
    [ apply (keeps_ret _ sameElements_refl)
    | apply (keeps_throw _ sameElements_refl)
    | apply (keeps_gets _ sameElements_refl)
    | apply (keeps_json _ sameElements_refl)
    | apply (keeps_deref _ sameElements_refl)
    | apply elements_consoleError
    | apply elements_fetch
    | apply elements_withChart
    | apply elements_modifyDom; intro;
      first [ reflexivity | apply isNull_assign ]
    | apply (keeps_bind _ sameElements_trans); [|intro]
    | apply (keeps_tryCatch _ sameElements_trans); [|intro]
    | match goal with
      | |- keeps _ (if ?b then _ else _) => destruct b
      | |- keeps _ (match ?x with _ => _ end) => destruct x
      end ].

Lemma loadTotals_elements (r : FetchResult TotalsResult) :
  keeps sameElements (loadTotals r).
Proof. unfold loadTotals, renderTotals. elements. Qed.

Lemma loadMunicipalityDetails_elements `{NumberOps}
    (r : FetchResult DetailsResult) :
  keeps sameElements (loadMunicipalityDetails r).
Proof. unfold loadMunicipalityDetails, renderDetails. elements. Qed.

(** A dropped promise changes, of the world, what the call changed, and
    the list of unhandled rejections. *)
Lemma detach_world (c : Eff unit) (w : World) :
  requests (snd (detach c w)) = requests (snd (c w))
  /\ dom (snd (detach c w)) = dom (snd (c w))
  /\ currentFilter (snd (detach c w)) = currentFilter (snd (c w))
  /\ sectorMeta (snd (detach c w)) = sectorMeta (snd (c w)).
Proof. unfold detach. destruct (c w) as [[[]|e] w']; repeat split. Qed.

Lemma detach_sameControls (c : Eff unit) (w : World) :
  keeps sameControls c -> sameControls w (snd (detach c w)).
Proof. intro Hc. apply detach_frame, Hc. Qed.

Lemma detach_sameElements (c : Eff unit) (w : World) :
  keeps sameElements c -> sameElements w (snd (detach c w)).
Proof.
  intro Hc. specialize (Hc w). destruct (detach_world c w) as (_ & Hd & _).
  unfold sameElements in *. rewrite Hd. exact Hc.
Qed.

(** The requests of the three loads that follow a change of the filter:
    details, then totals, then chart, each for the scope in force. *)
Lemma reloadAll_requests `{NumberOps} (a : Answers) (w : World) :
  requests (snd (reloadAll a w))
  = (requests w ++ detailsRequests w (resolveScope w)
     ++ [totalsEndpoint (resolveScope w)]
     ++ chartRequests w (resolveScope w))%list.
Proof.
  unfold reloadAll. rewrite !bind_detach.
  set (w1 := snd (detach (loadMunicipalityDetails (detailsAnswer a)) w)).
  set (w2 := snd (detach (loadTotals (totalsAnswer a)) w1)).
  pose proof (detach_sameControls _ w
                (loadMunicipalityDetails_controls (detailsAnswer a))) as C1.
  pose proof (detach_sameElements _ w
                (loadMunicipalityDetails_elements (detailsAnswer a))) as E1.
  pose proof (detach_sameControls _ w1 (loadTotals_controls (totalsAnswer a))) as C2.
  pose proof (detach_sameElements _ w1 (loadTotals_elements (totalsAnswer a))) as E2.
  fold w1 in C1, E1. fold w2 in C2, E2.
  destruct (detach_world (loadChart (chartAnswer a)) w2) as (-> & _).
  rewrite loadChart_request.
  destruct (detach_world (loadTotals (totalsAnswer a)) w1) as (R2 & _).
  fold w2 in R2. rewrite R2, loadTotals_request.
  destruct (detach_world (loadMunicipalityDetails (detailsAnswer a)) w) as (R1 & _).
  fold w1 in R1. rewrite R1, loadMunicipalityDetails_request.
  rewrite (resolveScope_sameControls _ _ C2), (resolveScope_sameControls _ _ C1).
  destruct E2 as (E2 & _). destruct E1 as (E1 & _). rewrite E2, E1.
  unfold detailsRequests, chartRequests. rewrite <- !app_assoc. reflexivity.
Qed.

Lemma reloadAll_world `{NumberOps} (a : Answers) (w : World) :
  fst (reloadAll a w) = Normal tt
  /\ currentFilter (snd (reloadAll a w)) = currentFilter w
  /\ resolveScope (snd (reloadAll a w)) = resolveScope w.
Proof.
  destruct (reloadAll_frame a w) as [Hn Hc].
  split; [exact Hn|]. split; [apply Hc | apply resolveScope_sameControls, Hc].
Qed.

(** The scope of a page on which the filter was just set. *)
Lemma resolveScope_withFilter (f : FilterState) (w : World) :
  resolveScope (withFilter f w)
  = match getBodySector w with
    | Some boundKey => BySector boundKey
    | None =>
        match orNull (municipality f) with
        | Some name => ByMunicipality name
        | None =>
            match orNull (sector f) with
            | Some key => BySector key
            | None => AllData
            end
        end
    end.
Proof. reflexivity. Qed.

(** The municipality listener writes the filter, then starts the three
    loads. *)
Lemma onMunicipalityChange_reloads `{NumberOps} (value : string) (a : Answers)
    (w : World) :
  onMunicipalityChange value a w
  = reloadAll a
      (withFilter {| sector := sector (currentFilter w);
                     municipality := orNull (Some value) |} w).
Proof. reflexivity. Qed.

Lemma orNull_value (value : string) :
  orNull (Some value) = if nonEmpty value then Some value else None.
Proof. reflexivity. Qed.

(** X16: After a change of the municipality the filter holds the chosen
    municipality (none for the empty value) beside the sector it held; the
    scope is the bound sector if the page has one, else the municipality
    if one was chosen, else the sector held, else all data; and the
    listener requests, in this order, the details, the totals and the chart
    of that scope, the details for a municipality alone. *)
Theorem municipality_change_reloads_for_new_scope `{NumberOps}
    (value : string) (a : Answers) (w : World) :
  let w' := snd (onMunicipalityChange value a w) in
  let scope :=
    match getBodySector w with
    | Some boundKey => BySector boundKey
    | None =>
        if nonEmpty value then ByMunicipality value
        else match orNull (sector (currentFilter w)) with
             | Some key => BySector key
             | None => AllData
             end
    end in
  fst (onMunicipalityChange value a w) = Normal tt
  /\ currentFilter w'
     = {| sector := sector (currentFilter w);
          municipality := if nonEmpty value then Some value else None |}
  /\ resolveScope w' = scope
  /\ requests w'
     = (requests w ++ detailsRequests w scope ++ [totalsEndpoint scope]
        ++ chartRequests w scope)%list.
Proof.
  cbv zeta. rewrite onMunicipalityChange_reloads.
  set (f := {| sector := sector (currentFilter w);
               municipality := orNull (Some value) |}).
  destruct (reloadAll_world a (withFilter f w)) as (Hn & Hf & Hs).
  rewrite Hn, Hf, Hs, reloadAll_requests, resolveScope_withFilter.
  subst f. cbn [sector municipality currentFilter withFilter].
  rewrite orNull_value.
  assert (Hscope :
    match getBodySector w with
    | Some boundKey => BySector boundKey
    | None =>
        match orNull (if nonEmpty value then Some value else None) with
        | Some name => ByMunicipality name
        | None =>
            match orNull (sector (currentFilter w)) with
            | Some key => BySector key
            | None => AllData
            end
        end
    end
    = match getBodySector w with
      | Some boundKey => BySector boundKey
      | None =>
          if nonEmpty value then ByMunicipality value
          else match orNull (sector (currentFilter w)) with
               | Some key => BySector key
               | None => AllData
               end
      end).
  { destruct (getBodySector w); [reflexivity|].
    destruct (nonEmpty value) eqn:Ev; [|reflexivity].
    unfold orNull. cbn [truthy]. rewrite Ev. reflexivity. }
  rewrite Hscope. repeat split.
Qed.

(** X17: After a change of the sector the scope is the bound sector if the page
    has one, else the chosen sector, else all data; the listener requests
    the totals and the chart of that scope, and never the details of a
    municipality. *)
Theorem sector_change_reloads_for_new_scope `{NumberOps}
    (value : string) (a : Answers) (w : World) :
  let w' := snd (onSectorChange value a w) in
  let scope :=
    match getBodySector w with
    | Some boundKey => BySector boundKey
    | None => if nonEmpty value then BySector value else AllData
    end in
  resolveScope w' = scope
  /\ detailsRequests w scope = []
  /\ requests w'
     = (requests w ++ [totalsEndpoint scope] ++ chartRequests w scope)%list.
Proof.
  cbv zeta.
  assert (Hrun : exists w1,
            onSectorChange value a w = reloadAll a w1
            /\ currentFilter w1
               = {| sector := if nonEmpty value then Some value else None;
                    municipality := None |}
            /\ body_data_sector (dom w1) = body_data_sector (dom w)
            /\ sameElements w w1
            /\ requests w1 = requests w).
  { unfold onSectorChange. destruct (nonEmpty value) eqn:Ev; cbn [negb];
      eexists; (split; [reflexivity|]); repeat split. }
  destruct Hrun as (w1 & -> & Hf & Hb & (Hc & Hs & Hr) & Hq).
  destruct (reloadAll_world a w1) as (_ & _ & ->).
  rewrite reloadAll_requests, Hq.
  assert (Hscope : resolveScope w1
                   = match getBodySector w with
                     | Some boundKey => BySector boundKey
                     | None => if nonEmpty value then BySector value else AllData
                     end).
  { unfold resolveScope, getBodySector. rewrite Hb, Hf. cbn [sector municipality].
    destruct (orNull (body_data_sector (dom w))); [reflexivity|].
    destruct (nonEmpty value) eqn:Ev; [|reflexivity].
    unfold orNull. cbn [truthy]. rewrite Ev. reflexivity. }
  rewrite Hscope. unfold detailsRequests, chartRequests. rewrite Hc, Hs, Hr.
  assert (Hd : detailsEndpoint
                 match getBodySector w with
                 | Some boundKey => BySector boundKey
                 | None => if nonEmpty value then BySector value else AllData
                 end = None)
    by (destruct (getBodySector w); [|destruct (nonEmpty value)]; reflexivity).
  rewrite Hd.
  destruct (isNull (muni_summary_table (dom w)) || isNull (muni_raw_table (dom w)));
    repeat split.
Qed.

(** X18: The listeners never leave the empty string in the filter: after a
    change of the sector neither field holds it, and a change of the
    municipality leaves the sector as it was and a municipality that is
    not the empty string. *)
Theorem filter_never_holds_empty_string `{NumberOps}
    (value : string) (a : Answers) (w : World) :
  wellFormedFilter (currentFilter (snd (onSectorChange value a w)))
  /\ municipality (currentFilter (snd (onMunicipalityChange value a w)))
     <> Some ""
  /\ sector (currentFilter (snd (onMunicipalityChange value a w)))
     = sector (currentFilter w).
Proof.
  split.
  - destruct (onSectorChange_reloads value a w) as (w1 & -> & Hf & _).
    destruct (reloadAll_world a w1) as (_ & -> & _). rewrite Hf.
    unfold wellFormedFilter. cbn [sector municipality].
    split; [|discriminate].
    destruct (nonEmpty value) eqn:Ev; [|discriminate].
    intro E. injection E as ->. discriminate Ev.
  - rewrite onMunicipalityChange_reloads.
    destruct (reloadAll_world a
                (withFilter {| sector := sector (currentFilter w);
                               municipality := orNull (Some value) |} w))
      as (_ & -> & _).
    cbn [sector municipality currentFilter withFilter]. rewrite orNull_value.
    split; [|reflexivity].
    destruct (nonEmpty value) eqn:Ev; [|discriminate].
    intro E. injection E as ->. discriminate Ev.
Qed.

(** ** Setting up the filters, and the start of the page *)

(** Whether [setupHomeFilters] gets as far as its request. *)
Lemma setupHomeFilters_skipped (r : FetchResult SectorMeta) (c : FilterControls)
    (w : World) :
  truthy (getBodySector w) || isNull (sector_filter c)
  || negb (has_municipality_filter c) = true ->
  setupHomeFilters r c w = (Normal c, w).
Proof.
  unfold setupHomeFilters. rewrite bind_gets.
  destruct (truthy (getBodySector w)); [reflexivity|].
  destruct (sector_filter c); [|reflexivity].
  destruct (has_municipality_filter c); [discriminate | reflexivity].
Qed.

Ltac run_setup :=
  cbv beta iota zeta delta
    [tryCatch bind fetch json deref modify ret throw fst snd
     withRequests withSectorMeta setupFailed requests sectorMeta dom
     currentFilter visitsChart console unhandled
     sector_filter has_municipality_filter listening setup_log].

(** What [setupHomeFilters] does to the world, whatever it is answered. *)
Lemma setupHomeFilters_world (r : FetchResult SectorMeta) (c : FilterControls)
    (w : World) :
  (exists c', fst (setupHomeFilters r c w) = Normal c')
  /\ dom (snd (setupHomeFilters r c w)) = dom w
  /\ currentFilter (snd (setupHomeFilters r c w)) = currentFilter w
  /\ requests (snd (setupHomeFilters r c w))
     = (requests w
        ++ (if truthy (getBodySector w) || isNull (sector_filter c)
               || negb (has_municipality_filter c)
            then [] else ["/api/meta/sectors"]))%list.
Proof.
  destruct (truthy (getBodySector w) || isNull (sector_filter c)
            || negb (has_municipality_filter c)) eqn:Hskip.
  - rewrite (setupHomeFilters_skipped r c w Hskip), app_nil_r.
    split; [eexists; reflexivity | repeat split].
  - unfold setupHomeFilters. rewrite bind_gets.
    destruct (truthy (getBodySector w)); [discriminate Hskip|].
    destruct (sector_filter c) as [options|] eqn:Hs; [|discriminate Hskip].
    destruct (has_municipality_filter c) eqn:Hm; [|discriminate Hskip].
    cbn [negb].
    destruct r as [|[| |m]|b]; run_setup;
      (split; [eexists; reflexivity | repeat split]).
Qed.

(** X19: [setupHomeFilters] throws nothing and touches neither the page nor the
    filter state.  On a page bound to a sector, or without one of the two
    selects, it does nothing.  Otherwise it requests the metadata once;
    on an object body it stores the metadata, appends one option per
    sector in the order of the metadata, the text being the label or, for
    want of one, the key, and installs the listeners; on any other answer
    it installs nothing, leaves the options as they were and logs the
    failure. *)
Theorem setupHomeFilters_outcomes (r : FetchResult SectorMeta)
    (c : FilterControls) (w : World) :
  let c' := match fst (setupHomeFilters r c w) with
            | Normal c' => Some c'
            | Throw _ => None
            end in
  let w' := snd (setupHomeFilters r c w) in
  let failed f :=
    c' = Some (setupFailed c f)
    /\ requests w' = (requests w ++ ["/api/meta/sectors"])%list in
  dom w' = dom w
  /\ currentFilter w' = currentFilter w
  /\ (if truthy (getBodySector w) || isNull (sector_filter c)
         || negb (has_municipality_filter c)
      then c' = Some c /\ w' = w
      else
        match r with
        | HttpOk (JObj meta) =>
            c' = Some {| sector_filter :=
                           option_map (fun options =>
                                         (options ++ map sectorOption meta)%list)
                                      (sector_filter c);
                         has_municipality_filter := true;
                         listening := true;
                         setup_log := setup_log c |}
            /\ sectorMeta w' = meta
            /\ requests w' = (requests w ++ ["/api/meta/sectors"])%list
        | HttpOk JNull => failed (Raised TypeError) /\ sectorMeta w' = []
        | HttpOk Unparsable =>
            failed (Raised SyntaxError) /\ sectorMeta w' = sectorMeta w
        | HttpError _ => failed FailedMeta /\ sectorMeta w' = sectorMeta w
        | Rejected =>
            failed (Raised NetworkError) /\ sectorMeta w' = sectorMeta w
        end).
Proof.
  cbv zeta.
  destruct (truthy (getBodySector w) || isNull (sector_filter c)
            || negb (has_municipality_filter c)) eqn:Hskip.
  - rewrite (setupHomeFilters_skipped r c w Hskip). repeat split.
  - unfold setupHomeFilters. rewrite bind_gets.
    destruct (truthy (getBodySector w)); [discriminate Hskip|].
    destruct (sector_filter c) as [options|] eqn:Hs; [|discriminate Hskip].
    destruct (has_municipality_filter c) eqn:Hm; [|discriminate Hskip].
    cbn [negb].
    destruct r as [|[| |meta]|b]; run_setup; rewrite ?Hs, ?Hm; repeat split.
Qed.

Lemma metaLookup_In (m : SectorMeta) (key : string) (info : SectorInfo) :
  NoDup (map fst m) -> In (key, info) m -> metaLookup m key = Some info.
Proof.
  induction m as [|[k i] m IH]; intros Hnd Hin; [destruct Hin|].
  cbn in Hnd. inversion Hnd as [|? ? Hk Hnd']; subst.
  cbn. destruct Hin as [E|Hin].
  - injection E as -> ->. rewrite String.eqb_refl. reflexivity.
  - destruct (String.eqb k key) eqn:E; [|exact (IH Hnd' Hin)].
    apply String.eqb_eq in E. subst k. exfalso. apply Hk.
    apply (in_map fst) in Hin. exact Hin.
Qed.

(** X20: Every sector of the metadata gets an option whose value is its key,
    and picking that option finds the metadata of that very sector: the
    municipalities offered are the ones it lists. *)
Theorem sector_options_find_their_metadata (m : SectorMeta) (key : string)
    (info : SectorInfo) :
  NoDup (map fst m) ->
  In (key, info) m ->
  In (key, if nonEmpty (label info) then label info else key)
     (map sectorOption m)
  /\ metaLookup m key = Some info
  /\ municipalitiesOf m key
     = match municipalities info with
       | Some ms => ms
       | None => []
       end.
Proof.
  intros Hnd Hin. split; [exact (in_map sectorOption m (key, info) Hin)|].
  pose proof (metaLookup_In m key info Hnd Hin) as Hl.
  split; [exact Hl|]. unfold municipalitiesOf. rewrite Hl. reflexivity.
Qed.

(** The sector "khamis" of the home page. *)
Lemma sector_options_find_their_metadata_example :
  In ("khamis", "خميس مشيط") (map sectorOption (sectorMeta homePage))
  /\ municipalitiesOf (sectorMeta homePage) "khamis" = ["Z"].
Proof.
  destruct (sector_options_find_their_metadata (sectorMeta homePage) "khamis"
              {| label := "خميس مشيط"; municipalities := Some ["Z"] |})
    as (Ho & _ & Hm).
  - repeat constructor; cbn; intuition discriminate.
  - right. left. reflexivity.
  - split; [exact Ho | exact Hm].
Defined.

Lemma loadChart_elements (r : FetchResult ChartData) :
  keeps sameElements (loadChart r).
Proof. unfold loadChart. elements. Qed.

Lemma bind_detach_any {B : Type} (c : Eff unit) (k : Eff B) (w : World) :
  bind (detach c) (fun _ => k) w = k (snd (detach c w)).
Proof.
  unfold bind, detach. destruct (c w) as [[[]|e] w']; reflexivity.
Qed.

(** X21: When the page starts, the metadata is requested first, on a home page
    that has the two selects and there alone; then the totals, the chart
    and the details of the scope are requested in this order, each by its
    loader's own rule.  Nothing is thrown, and the filter state is as it
    was. *)
Theorem page_start_requests `{NumberOps} (meta : FetchResult SectorMeta)
    (a : Answers) (c : FilterControls) (w : World) :
  let w' := snd (onDOMContentLoaded meta a c w) in
  let scope := resolveScope w in
  let metaRequests :=
    if truthy (getBodySector w) || isNull (sector_filter c)
       || negb (has_municipality_filter c)
    then [] else ["/api/meta/sectors"] in
  requests w'
  = (requests w ++ metaRequests ++ [totalsEndpoint scope]
     ++ chartRequests w scope ++ detailsRequests w scope)%list
  /\ currentFilter w' = currentFilter w
  /\ (exists c', fst (onDOMContentLoaded meta a c w) = Normal c').
Proof.
  cbv zeta.
  destruct (setupHomeFilters_world meta c w) as ((c0 & Sn) & Sd & Sf & Sq).
  destruct (setupHomeFilters meta c w) as [res w0] eqn:Ew.
  cbn [fst snd] in *. subst res.
  set (w1 := snd (detach (loadTotals (totalsAnswer a)) w0)).
  set (w2 := snd (detach (loadChart (chartAnswer a)) w1)).
  set (w3 := snd (detach (loadMunicipalityDetails (detailsAnswer a)) w2)).
  assert (Hrun : onDOMContentLoaded meta a c w = (Normal c0, w3)).
  { unfold onDOMContentLoaded. unfold bind at 1. rewrite Ew. cbv beta iota.
    rewrite !bind_detach_any. reflexivity. }
  rewrite Hrun. cbn [fst snd].
  pose proof (detach_sameControls _ w0 (loadTotals_controls (totalsAnswer a))) as C1.
  pose proof (detach_sameElements _ w0 (loadTotals_elements (totalsAnswer a))) as E1.
  pose proof (detach_sameControls _ w1 (loadChart_controls (chartAnswer a))) as C2.
  pose proof (detach_sameElements _ w1 (loadChart_elements (chartAnswer a))) as E2.
  pose proof (detach_sameControls _ w2
                (loadMunicipalityDetails_controls (detailsAnswer a))) as C3.
  fold w1 in C1, E1. fold w2 in C2, E2. fold w3 in C3.
  assert (Hs0 : resolveScope w0 = resolveScope w)
    by (unfold resolveScope; rewrite Sd, Sf; reflexivity).
  assert (R3 : requests w3
               = requests (snd (loadMunicipalityDetails (detailsAnswer a) w2)))
    by apply detach_world.
  assert (R2 : requests w2 = requests (snd (loadChart (chartAnswer a) w1)))
    by apply detach_world.
  assert (R1 : requests w1 = requests (snd (loadTotals (totalsAnswer a) w0)))
    by apply detach_world.
  rewrite loadMunicipalityDetails_request in R3.
  rewrite loadChart_request in R2. rewrite loadTotals_request in R1.
  rewrite (resolveScope_sameControls _ _ C2),
    (resolveScope_sameControls _ _ C1), Hs0 in R3.
  rewrite (resolveScope_sameControls _ _ C1), Hs0 in R2. rewrite Hs0 in R1.
  destruct E1 as (Ec1 & Es1 & Er1). destruct E2 as (Ec2 & Es2 & Er2).
  rewrite Es2, Er2, Es1, Er1, Sd in R3. rewrite Ec1, Sd in R2.
  split; [|split].
  - rewrite R3, R2, R1, Sq. unfold detailsRequests, chartRequests.
    rewrite <- !app_assoc. reflexivity.
  - destruct C3 as (-> & _). destruct C2 as (-> & _). destruct C1 as (-> & _).
    exact Sf.
  - exists c0. reflexivity.
Qed.

(** ** The URLs of two municipalities *)

Lemma percentEncode_decode (c : ascii) :
  exists hi lo,
    percentEncode c = String "%" (String hi (String lo ""))
    /\ percentDecode hi lo = c.
Proof.
  destruct c as [[] [] [] [] [] [] [] []];
    eexists; eexists; split; try reflexivity; vm_compute; reflexivity.
Qed.

Lemma encodeURIComponent_injective (s1 s2 : string) :
  encodeURIComponent s1 = encodeURIComponent s2 -> s1 = s2.
Proof.
  revert s2. induction s1 as [|c1 s1 IH]; intros [|c2 s2]; cbn [encodeURIComponent].
  - reflexivity.
  - destruct (isUnreserved c2); [discriminate|].
    destruct (percentEncode_decode c2) as (hi & lo & -> & _). discriminate.
  - destruct (isUnreserved c1); [discriminate|].
    destruct (percentEncode_decode c1) as (hi & lo & -> & _). discriminate.
  - destruct (isUnreserved c1) eqn:U1, (isUnreserved c2) eqn:U2.
    + cbn. intro E. injection E as -> E. f_equal. exact (IH _ E).
    + destruct (percentEncode_decode c2) as (hi & lo & -> & _).
      cbn. intro E. injection E as -> _. discriminate U1.
    + destruct (percentEncode_decode c1) as (hi & lo & -> & _).
      cbn. intro E. injection E as <- _. discriminate U2.
    + destruct (percentEncode_decode c1) as (h1 & l1 & -> & D1).
      destruct (percentEncode_decode c2) as (h2 & l2 & -> & D2).
      cbn. intro E. injection E as -> -> E. rewrite D1 in D2. subst c2.
      f_equal. exact (IH _ E).
Qed.

Lemma append_cancel_l (p x y : string) : p ++ x = p ++ y -> x = y.
Proof.
  induction p as [|c p IH]; cbn; intro E; [exact E|].
  injection E as E. exact (IH E).
Qed.

Lemma length_append (s t : string) :
  String.length (s ++ t) = (String.length s + String.length t)%nat.
Proof. induction s as [|c s IH]; cbn; [reflexivity | rewrite IH; reflexivity]. Qed.

Lemma append_cancel_r (x y t : string) : x ++ t = y ++ t -> x = y.
Proof.
  revert y. induction x as [|c x IH]; intros [|d y] E.
  - reflexivity.
  - apply (f_equal String.length) in E. cbn in E. rewrite length_append in E. lia.
  - apply (f_equal String.length) in E. cbn in E. rewrite length_append in E. lia.
  - cbn in E. injection E as -> E. f_equal. exact (IH _ E).
Qed.

(** X22: Two municipalities whose names differ are never asked for under the
    same URL, by any of the three loaders: equal endpoints mean equal
    names. *)
Theorem municipality_endpoints_tell_names_apart (name1 name2 : string) :
  (totalsEndpoint (ByMunicipality name1) = totalsEndpoint (ByMunicipality name2)
   -> name1 = name2)
  /\ (chartEndpoint (ByMunicipality name1) = chartEndpoint (ByMunicipality name2)
      -> name1 = name2)
  /\ (detailsEndpoint (ByMunicipality name1)
      = detailsEndpoint (ByMunicipality name2)
      -> name1 = name2).
Proof.
  unfold totalsEndpoint, chartEndpoint, detailsEndpoint.
  split; [|split]; intro E.
  - apply append_cancel_l in E. exact (encodeURIComponent_injective _ _ E).
  - apply append_cancel_l in E. exact (encodeURIComponent_injective _ _ E).
  - injection E as E. apply append_cancel_r in E.
    exact (encodeURIComponent_injective _ _ E).
Qed.

(** The same name twice. *)
Lemma municipality_endpoints_same_name : "X" = "X".
Proof.
  exact (proj1 (municipality_endpoints_tell_names_apart "X" "X") eq_refl).
Defined.

(** A name with a slash and the name that spells its escape are encoded
    differently. *)
Example encodeURIComponent_escapes_percent :
  encodeURIComponent "a/b" = "a%2Fb"
  /\ encodeURIComponent "a%2Fb" = "a%252Fb".
Proof. split; reflexivity. Qed.
